(** * Statistics screen: client-side aggregation of health logs

    A shallow embedding of the aggregation code of [StatisticsScreen]
    (calculateStats, getChartData, getWeekComparison, getMarkedDates) and of
    the part of the component's life cycle that decides which [stats] table
    calculateStats starts from.

    Numbers.  A JavaScript number is read as an exact rational ([Q]); the
    rounding error of doubles, NaN and the sign of zero are outside the model.
    [x.toFixed(1)] followed by [parseFloat] is [toFixed1].

    Dates.  A [Date] is [option Z]: [None] is Invalid Date, [Some t] is the
    instant [t] in milliseconds since the epoch.  The device's offset from UTC
    is the section variable [utcOffset], taken constant. *)

From Stdlib Require Import ZArith QArith Qround Qabs Qminmax Qreduction Lia Lqa.
From stdpp Require Import gmap strings list sorting functions pretty.

Local Open Scope Z_scope.

(** ** Numbers *)

(** [parseFloat(x.toFixed(1))]: toFixed works on the magnitude, takes the
    integer [n] with [n / 10] closest to it, the larger one on a tie, and puts
    the sign back. *)
Definition toFixed1 (x : Q) : Q :=
  let n := Qfloor (Qabs x * 10 + (1 # 2))%Q in
  Qred (if Qlt_le_dec x 0 then (- n) # 10 else n # 10).

(** [v || null] on a number: zero is falsy. *)
Definition orNull (v : Q) : option Q :=
  if Qeq_bool v 0 then None else Some v.

(** [values.reduce((a, b) => a + b, 0)] *)
Definition reduceSum (values : list Q) : Q := fold_left Qplus values 0%Q.

(** [Math.min(...values)] and [Math.max(...values)] on a list with a head. *)
Definition Math_min (v : Q) (vs : list Q) : Q := fold_left Qmin vs v.
Definition Math_max (v : Q) (vs : list Q) : Q := fold_left Qmax vs v.

Definition lengthQ {A} (l : list A) : Q := inject_Z (Z.of_nat (length l)).

(** ** Records and metrics *)

Inductive MetricType := weight | heartRate | steps | sleep | water.

Global Instance MetricType_eq_dec : EqDecision MetricType.
Proof. solve_decision. Defined.

Definition METRIC_TYPES : list MetricType :=
  [weight; heartRate; steps; sleep; water].

(** The string a metric is written as in a record's [metric_type]. *)
Definition metricKey (metric : MetricType) : string :=
  match metric with
  | weight => "weight"
  | heartRate => "heartRate"
  | steps => "steps"
  | sleep => "sleep"
  | water => "water"
  end.

(** [isValidMetric] as a parser: the metric a string names, if any. *)
Definition isValidMetric (metric : string) : option MetricType :=
  snd <$> list_find (λ m, metricKey m = metric) METRIC_TYPES.

(** The [logged_at] field as the screen meets it. *)
Inductive LoggedAt :=
  | Missing                 (* undefined, null or the empty string: falsy *)
  | Unparsable (raw : string) (* a non-empty string parseISO cannot read *)
  | Instant (ms : Z).       (* a string parseISO reads as this instant *)

(** A record of /health-logs/; [id_] and [unit_] are its [id] and [unit]. *)
Record HealthLog := {
  id_ : Z;
  metric_type : string;
  value1 : Q;
  unit_ : string;
  logged_at : LoggedAt
}.

(** ** calculateStats *)

Inductive Trend := up | down | stable | none.

Record MetricStat := {
  current : option Q;
  avg : option Q;
  min : option Q;
  max : option Q;
  trend : Trend;
  change : Q
}.

(** [Record<MetricType, any>]: one entry per metric. *)
Definition Stats : Type := MetricType → MetricStat.

Definition emptyStat : MetricStat :=
  {| current := None; avg := None; min := None; max := None;
     trend := none; change := 0%Q |}.

(** The argument of [useState] for [stats]. *)
Definition initialStats : Stats := λ _, emptyStat.

(** The [switch (metric)] of calculateStats, on the metric's string. *)
Definition threshold (metric : string) : Q :=
  if decide (metric = "weight") then 0.5%Q
  else if decide (metric = "heartRate") then 5%Q
  else if decide (metric = "steps") then 500%Q
  else if decide (metric = "sleep") then 0.5%Q
  else if decide (metric = "water") then 1%Q
  else 0%Q.

(** The if / else-if chain on [change] and [threshold]. *)
Definition classify (change threshold : Q) : Trend :=
  if Qlt_le_dec threshold change then up
  else if Qlt_le_dec change (- threshold) then down
  else stable.

Definition matching (metric : MetricType) (data : list HealthLog) : list HealthLog :=
  filter (λ r, metric_type r = metricKey metric) data.

(** The body of [if (metricRecords.length > 0)]: [first] is metricRecords[0]
    and [rest] what follows it, so metricRecords[length - 1] is the last of
    [rest], or [first] when [rest] is empty. *)
Definition metricStat (metric : MetricType) (first : HealthLog) (rest : list HealthLog)
  : MetricStat :=
  let metricRecords := first :: rest in
  let values := value1 <$> metricRecords in
  let lastRecord := List.last rest first in
  let current := orNull (value1 lastRecord) in
  let avg := (reduceSum values / lengthQ values)%Q in
  let min := Math_min (value1 first) (value1 <$> rest) in
  let max := Math_max (value1 first) (value1 <$> rest) in
  let trendAndChange :=
    if decide (2 ≤ length metricRecords)%nat then
      let change := (value1 lastRecord - value1 first)%Q in
      (classify change (threshold (metricKey metric)), change)
    else (none, 0%Q) in
  {| current := current;
     avg := Some (toFixed1 avg);
     min := Some (toFixed1 min);
     max := Some (toFixed1 max);
     trend := trendAndChange.1;
     change := toFixed1 trendAndChange.2 |}.

(** The callback of [METRIC_TYPES.forEach]: [newStats[metric]] is assigned
    only when the metric has records. *)
Definition updateMetric (data : list HealthLog) (newStats : Stats) (metric : MetricType)
  : Stats :=
  match matching metric data with
  | [] => newStats
  | first :: rest => <[metric := metricStat metric first rest]> newStats
  end.

(** calculateStats: [stats] is the variable the closure captured, [newStats]
    starts as a copy of it, and the result is the table handed to [setStats]. *)
Definition calculateStats (stats : Stats) (data : list HealthLog) : Stats :=
  foldl (updateMetric data) stats METRIC_TYPES.

(** ** The component: state, renders and the memoised loadData *)

Inductive TimeRange := week | month | year.

Record ScreenState := {
  selectedDate : string;
  records : list HealthLog;
  selectedMetric : MetricType;
  timeRange : TimeRange;
  refreshing : bool;
  stats : Stats
}.

Definition setSelectedDate (d : string) (s : ScreenState) : ScreenState :=
  {| selectedDate := d; records := records s; selectedMetric := selectedMetric s;
     timeRange := timeRange s; refreshing := refreshing s; stats := stats s |}.
Definition setRecords (data : list HealthLog) (s : ScreenState) : ScreenState :=
  {| selectedDate := selectedDate s; records := data; selectedMetric := selectedMetric s;
     timeRange := timeRange s; refreshing := refreshing s; stats := stats s |}.
Definition setSelectedMetric (m : MetricType) (s : ScreenState) : ScreenState :=
  {| selectedDate := selectedDate s; records := records s; selectedMetric := m;
     timeRange := timeRange s; refreshing := refreshing s; stats := stats s |}.
Definition setTimeRange (r : TimeRange) (s : ScreenState) : ScreenState :=
  {| selectedDate := selectedDate s; records := records s; selectedMetric := selectedMetric s;
     timeRange := r; refreshing := refreshing s; stats := stats s |}.
Definition setRefreshing (b : bool) (s : ScreenState) : ScreenState :=
  {| selectedDate := selectedDate s; records := records s; selectedMetric := selectedMetric s;
     timeRange := timeRange s; refreshing := b; stats := stats s |}.
Definition setStats (t : Stats) (s : ScreenState) : ScreenState :=
  {| selectedDate := selectedDate s; records := records s; selectedMetric := selectedMetric s;
     timeRange := timeRange s; refreshing := refreshing s; stats := t |}.

(** The state of the first render; [today] is format(new Date(), 'yyyy-MM-dd'). *)
Definition initialState (today : string) : ScreenState :=
  {| selectedDate := today; records := []; selectedMetric := weight;
     timeRange := week; refreshing := false; stats := initialStats |}.

(** [useCallback(fn, deps)].  The cell keeps the callback and the dependency
    list of the render that stored it; a render whose dependency list equals
    the kept one gets the kept callback, not the one it has just built. *)
Definition useCallback {F D} `{EqDecision D} (cell : option (F * D)) (fn : F) (deps : D)
  : F * D :=
  match cell with
  | Some (kept, deps') => if decide (deps' = deps) then (kept, deps') else (fn, deps)
  | None => (fn, deps)
  end.

(** What loadData does once apiGet has resolved with [data]: setRecords(data),
    then calculateStats(data), which ends in setStats(newStats). *)
Definition LoadData : Type := list HealthLog → ScreenState → ScreenState.

(** The loadData a render of state [s] builds: its calculateStats is the one
    of that render, closed over that render's [stats]. *)
Definition loadData (s : ScreenState) : LoadData :=
  λ data st, setStats (calculateStats (stats s) data) (setRecords data st).

(** A mounted screen: its state and the useCallback cell of loadData, whose
    dependency list is [[]]. *)
Record Screen := {
  state : ScreenState;
  loadDataCell : LoadData * unit
}.

Definition render (cell : option (LoadData * unit)) (s : ScreenState) : LoadData * unit :=
  useCallback cell (loadData s) ().

Definition mount (today : string) : Screen :=
  let s := initialState today in
  {| state := s; loadDataCell := render None s |}.

Inductive Event :=
  | Loaded (data : list HealthLog)   (* apiGet resolved, on focus or on refresh *)
  | LoadFailed                       (* the catch branch: an alert, no update *)
  | SelectMetric (metric : string)   (* handleSelectMetric *)
  | PressMetricCard (metric : MetricType)
  | PressTimeRange (range : TimeRange)
  | DayPress (dateString : string)
  | Refreshing (b : bool).

Definition handle (c : Screen) (e : Event) : ScreenState :=
  match e with
  | Loaded data => (loadDataCell c).1 data (state c)
  | LoadFailed => state c
  | SelectMetric metric =>
      match isValidMetric metric with
      | Some m => setSelectedMetric m (state c)
      | None => state c
      end
  | PressMetricCard m => setSelectedMetric m (state c)
  | PressTimeRange r => setTimeRange r (state c)
  | DayPress d => setSelectedDate d (state c)
  | Refreshing b => setRefreshing b (state c)
  end.

(** An event updates the state and the screen renders again. *)
Definition step (c : Screen) (e : Event) : Screen :=
  let s := handle c e in
  {| state := s; loadDataCell := render (Some (loadDataCell c)) s |}.

Inductive reachable (today : string) : Screen → Prop :=
  | reachable_mount : reachable today (mount today)
  | reachable_step c e : reachable today c → reachable today (step c e).

(** The summaries on screen once a load of [data] has completed. *)
Definition summaries (c : Screen) (data : list HealthLog) : Stats :=
  stats (state (step c (Loaded data))).

(** ** Exceptions *)

Inductive Exception :=
  | RangeError_invalid_time   (* date-fns format on Invalid Date *)
  | TypeError_undefined.      (* a property read on undefined *)

Inductive Outcome (A : Type) :=
  | Returns (a : A)
  | Throws (e : Exception).
Arguments Returns {A} a.
Arguments Throws {A} e.

Global Instance Outcome_bind : MBind Outcome := λ A B k m,
  match m with
  | Returns a => k a
  | Throws e => Throws e
  end.

(** [xs.forEach(f)] threading the object [f] mutates. *)
Fixpoint forEach {A S} (f : S → A → Outcome S) (xs : list A) (s : S) : Outcome S :=
  match xs with
  | [] => Returns s
  | x :: xs' => s' ← f s x; forEach f xs' s'
  end.

(** [xs.map(f)] for an [f] that may throw. *)
Fixpoint mapThrowing {A B} (f : A → Outcome B) (xs : list A) : Outcome (list B) :=
  match xs with
  | [] => Returns []
  | x :: xs' => y ← f x; ys ← mapThrowing f xs'; Returns (y :: ys)
  end.

(** ** Dates (date-fns) *)

Definition msPerDay : Z := 86400000.

Definition Date : Type := option Z.

Definition parseISO (l : LoggedAt) : Date :=
  match l with
  | Instant ms => Some ms
  | Unparsable _ | Missing => None
  end.

(** [!r.logged_at] *)
Definition falsy (l : LoggedAt) : bool :=
  match l with
  | Missing => true
  | _ => false
  end.

(** Year, month and day of the proleptic Gregorian calendar for a day number
    counted from 1970-01-01. *)
Definition civil (day : Z) : Z * Z * Z :=
  let z := day + 719468 in
  let era := z / 146097 in
  let doe := z - era * 146097 in
  let yoe := (doe - doe / 1460 + doe / 36524 - doe / 146096) / 365 in
  let doy := doe - (365 * yoe + yoe / 4 - yoe / 100) in
  let mp := (5 * doy + 2) / 153 in
  let d := doy - (153 * mp + 2) / 5 + 1 in
  let m := if decide (mp < 10) then mp + 3 else mp - 9 in
  let y := yoe + era * 400 + (if decide (m ≤ 2) then 1 else 0) in
  (y, m, d).

(** [String(n).padStart(width, '0')] for a non-negative [n]. *)
Fixpoint padStart (zeros : nat) (s : string) : string :=
  match zeros with
  | O => s
  | S k => "0" +:+ padStart k s
  end.

Definition addLeadingZeros (n : Z) (targetLength : nat) : string :=
  let s := pretty (Z.to_N n) in
  padStart (targetLength - String.length s) s.

(** The year token [yyyy]: years before 1 are printed as years of the era. *)
Definition yearToken (signedYear : Z) : string :=
  let year := if decide (0 < signedYear) then signedYear else 1 - signedYear in
  addLeadingZeros year 4.

Inductive Pattern :=
  | MM_dd         (* 'MM/dd' *)
  | yyyy_MM_dd.   (* 'yyyy-MM-dd' *)

(** ** Results of the date-dependent operations *)

(** An entry of groupedData. *)
Module Bucket.
Record t := { sum : Q; count : Z }.
Definition empty : t := {| sum := 0%Q; count := 0 |}.
Definition add (b : t) (v : Q) : t := {| sum := (sum b + v)%Q; count := count b + 1 |}.
Definition mean (b : t) : Q := (sum b / inject_Z (count b))%Q.
End Bucket.

(** What getChartData hands to the chart: the labels and datasets[0].data. *)
Record ChartData := {
  labels : list string;
  data : list Q
}.

Module Week.
Record t := { currentWeekAvg : Q; lastWeekAvg : Q; change : Q }.
End Week.

(** An entry of the calendar's markedDates; a key the object does not have
    is [false] or [None]. *)
Record DayMarking := {
  marked : bool;
  dotColor : option string;
  selected : bool;
  selectedColor : option string
}.

(** metricConfig[metric].color *)
Definition metricColor (metric : MetricType) : string :=
  match metric with
  | weight => "#4F46E5"
  | heartRate => "#DC2626"
  | steps => "#10B981"
  | sleep => "#8B5CF6"
  | water => "#0EA5E9"
  end.

(** A stable sort by a comparator, as Array.prototype.sort is: an element
    goes after the elements the comparator puts strictly before it. *)
Fixpoint insertSorted {A} (before : A → A → bool) (r : A) (l : list A) : list A :=
  match l with
  | [] => [r]
  | x :: l' => if before x r then x :: insertSorted before r l' else r :: l
  end.

Definition sortStable {A} (before : A → A → bool) (l : list A) : list A :=
  foldr (insertSorted before) [] l.

(** [a] may stand in front of [b]: the comparator does not put [b] strictly
    before [a]. *)
Definition inOrder {A} (before : A → A → bool) (a b : A) : Prop := before b a = false.

(** [Object.keys(o).sort()]: the keys in the order of their code units. *)
Definition sortedKeys {V} (o : gmap string V) : list string :=
  merge_sort String.le (map_to_list o).*1.

Section Dates.

(** Local time minus UTC, in milliseconds. *)
Variable utcOffset : Z.

Definition localDay (t : Z) : Z := (t + utcOffset) / msPerDay.

Definition formatValid (t : Z) (p : Pattern) : string :=
  let '(y, m, d) := civil (localDay t) in
  match p with
  | MM_dd => addLeadingZeros m 2 +:+ "/" +:+ addLeadingZeros d 2
  | yyyy_MM_dd =>
      yearToken y +:+ "-" +:+ addLeadingZeros m 2 +:+ "-" +:+ addLeadingZeros d 2
  end.

(** [format(date, pattern)]: a RangeError on Invalid Date. *)
Definition format (date : Date) (p : Pattern) : Outcome string :=
  match date with
  | None => Throws RangeError_invalid_time
  | Some t => Returns (formatValid t p)
  end.

(** [subDays(date, amount)]: the same local time of day, [amount] days back. *)
Definition subDays (t : Z) (amount : Z) : Z := t - amount * msPerDay.

(** [getDay]: 0 is Sunday; 1970-01-01 was a Thursday. *)
Definition getDay (t : Z) : Z := (localDay t + 4) `mod` 7.

(** [startOfWeek(date)], weeks starting on Sunday: local midnight. *)
Definition startOfWeek (t : Z) : Z :=
  (localDay t - getDay t) * msPerDay - utcOffset.

(** [endOfWeek(date)]: Saturday, 23:59:59.999 local time. *)
Definition endOfWeek (t : Z) : Z := startOfWeek t + 7 * msPerDay - 1.

(** *** getChartData *)

Definition daysToShow (timeRange : TimeRange) : Z :=
  match timeRange with
  | week => 7
  | month => 30
  | year => 365
  end.

(** The callback of [records.filter] in getChartData. *)
Definition inChart (startDate : Z) (selectedMetric : MetricType) (r : HealthLog) : bool :=
  if falsy (logged_at r) then false
  else match parseISO (logged_at r) with
       | Some recordDate =>
           bool_decide (startDate ≤ recordDate)
           && bool_decide (metric_type r = metricKey selectedMetric)
       | None => false   (* Invalid Date >= startDate is false *)
       end.

(** The comparator of [.sort] is negative: [a] goes before [b]. *)
Definition earlier (a b : HealthLog) : bool :=
  match parseISO (logged_at a), parseISO (logged_at b) with
  | Some ta, Some tb => bool_decide (ta - tb < 0)
  | _, _ => false   (* NaN *)
  end.

Definition selectedRecords (records : list HealthLog) (selectedMetric : MetricType)
    (timeRange : TimeRange) (now : Z) : list HealthLog :=
  let startDate := subDays now (daysToShow timeRange) in
  sortStable earlier (filter (λ r, inChart startDate selectedMetric r) records).

(** The callback of [selectedRecords.forEach]. *)
Definition addToGroup (groupedData : gmap string Bucket.t) (record : HealthLog)
  : Outcome (gmap string Bucket.t) :=
  dateKey ← format (parseISO (logged_at record)) MM_dd;
  let groupedData :=
    match groupedData !! dateKey with
    | None => <[dateKey := Bucket.empty]> groupedData
    | Some _ => groupedData
    end in
  match groupedData !! dateKey with
  | Some b => Returns (<[dateKey := Bucket.add b (value1 record)]> groupedData)
  | None => Throws TypeError_undefined
  end.

Definition groupByLabel (rs : list HealthLog) : Outcome (gmap string Bucket.t) :=
  forEach addToGroup rs ∅.

Definition noData : ChartData := {| labels := ["暂无数据"]; data := [0%Q] |}.

Definition getChartData (records : list HealthLog) (selectedMetric : MetricType)
    (timeRange : TimeRange) (now : Z) : Outcome ChartData :=
  groupedData ← groupByLabel (selectedRecords records selectedMetric timeRange now);
  let dates := sortedKeys groupedData in
  values ← mapThrowing (λ date,
              match groupedData !! date with
              | Some b => Returns (Bucket.mean b)
              | None => Throws TypeError_undefined
              end) dates;
  if decide (length dates = 0%nat) then Returns noData
  else Returns {| labels := dates; data := values |}.

(** *** getWeekComparison *)

(** The callback of the two [records.filter] of getWeekComparison. *)
Definition inWeek (weekStart weekEnd : Z) (selectedMetric : MetricType) (r : HealthLog)
  : bool :=
  if falsy (logged_at r) then false
  else match parseISO (logged_at r) with
       | Some date =>
           bool_decide (weekStart ≤ date) && bool_decide (date ≤ weekEnd)
           && bool_decide (metric_type r = metricKey selectedMetric)
       | None => false
       end.

(** [rs.length > 0 ? rs.reduce((sum, r) => sum + r.value1, 0) / rs.length : 0] *)
Definition weekAvg (rs : list HealthLog) : Q :=
  if decide (0 < length rs)%nat
  then (fold_left (λ sum r, sum + value1 r) rs 0 / lengthQ rs)%Q
  else 0%Q.

Definition currentWeekRecords (records : list HealthLog) (selectedMetric : MetricType)
    (today : Z) : list HealthLog :=
  let startOfCurrentWeek := startOfWeek today in
  let endOfCurrentWeek := endOfWeek today in
  filter (λ r, inWeek startOfCurrentWeek endOfCurrentWeek selectedMetric r) records.

Definition lastWeekRecords (records : list HealthLog) (selectedMetric : MetricType)
    (today : Z) : list HealthLog :=
  let startOfLastWeek := startOfWeek (subDays today 7) in
  let endOfLastWeek := endOfWeek (subDays today 7) in
  filter (λ r, inWeek startOfLastWeek endOfLastWeek selectedMetric r) records.

Definition getWeekComparison (records : list HealthLog) (selectedMetric : MetricType)
    (today : Z) : Week.t :=
  let currentWeekAvg := weekAvg (currentWeekRecords records selectedMetric today) in
  let lastWeekAvg := weekAvg (lastWeekRecords records selectedMetric today) in
  {| Week.currentWeekAvg := toFixed1 currentWeekAvg;
     Week.lastWeekAvg := toFixed1 lastWeekAvg;
     Week.change := toFixed1 (currentWeekAvg - lastWeekAvg) |}.

(** *** getMarkedDates *)

(** The callback of [records.forEach] in getMarkedDates. *)
Definition markRecord (markedDates : gmap string DayMarking) (record : HealthLog)
  : Outcome (gmap string DayMarking) :=
  if falsy (logged_at record) then Returns markedDates
  else
    dateKey ← format (parseISO (logged_at record)) yyyy_MM_dd;
    match markedDates !! dateKey with
    | Some _ => Returns markedDates
    | None =>
        let color := from_option metricColor "#4F46E5" (isValidMetric (metric_type record)) in
        Returns (<[dateKey := {| marked := true; dotColor := Some color;
                                 selected := false; selectedColor := None |}]> markedDates)
    end.

Definition getMarkedDates (records : list HealthLog) (selectedDate : string)
  : Outcome (gmap string DayMarking) :=
  markedDates ← forEach markRecord records ∅;
  let old := markedDates !! selectedDate in
  Returns (<[selectedDate := {| marked := from_option marked false old;
                                dotColor := old ≫= dotColor;
                                selected := true;
                                selectedColor := Some "#4F46E5" |}]> markedDates).

(** *** Vocabulary of the statements *)

(** The trend read backwards. *)
Definition opposite (t : Trend) : Trend :=
  match t with
  | up => down
  | down => up
  | stable => stable
  | none => none
  end.

(** The arithmetic mean of a list of values, and the mean a week without
    records counts for. *)
Definition mean (values : list Q) : Q := (reduceSum values / lengthQ values)%Q.


(** The instant of a record whose timestamp parseISO reads. *)
Definition instantOf (r : HealthLog) : option Z := parseISO (logged_at r).

(** The day label of a record in the chart, and the records of a label. *)
Definition dayLabel (r : HealthLog) : option string :=
  (λ t, formatValid t MM_dd) <$> instantOf r.

Definition onDay (label : string) (rs : list HealthLog) : list HealthLog :=
  filter (λ r, dayLabel r = Some label) rs.

(** A record whose timestamp is missing or read by parseISO. *)
Definition readable (r : HealthLog) : Prop := ∀ raw, logged_at r ≠ Unparsable raw.

(** The day of a record as the calendar keys it, and the records of a day. *)
Definition dayKey (r : HealthLog) : option string :=
  (λ t, formatValid t yyyy_MM_dd) <$> instantOf r.

Definition loggedOn (day : string) (rs : list HealthLog) : list HealthLog :=
  filter (λ r, dayKey r = Some day) rs.

(** The dot a record puts on its day when it is the first of that day. *)
Definition dotOf (r : HealthLog) : DayMarking :=
  {| marked := true;
     dotColor := Some (from_option metricColor "#4F46E5" (isValidMetric (metric_type r)));
     selected := false; selectedColor := None |}.

(** The bucket of a label once the records [day] of that label have been
    added to what the bucket held, if anything. *)
Definition addAll (b : option Bucket.t) (day : list HealthLog) : option Bucket.t :=
  match day with
  | [] => b
  | _ => Some (foldl (λ b r, Bucket.add b (value1 r)) (default Bucket.empty b) day)
  end.

End Dates.

(** ** The rest of the statistics screen *)

Inductive ChartType := line | bar.

Module Config.
Record t := {
  label : string;
  unit : string;
  color : string;
  icon : string;
  chartType : ChartType
}.
End Config.

Definition metricConfig (metric : MetricType) : Config.t :=
  match metric with
  | weight =>
      {| Config.label := "体重"; Config.unit := "kg"; Config.color := "#4F46E5";
         Config.icon := "scale-outline"; Config.chartType := line |}
  | heartRate =>
      {| Config.label := "心率"; Config.unit := "bpm"; Config.color := "#DC2626";
         Config.icon := "heart-outline"; Config.chartType := line |}
  | steps =>
      {| Config.label := "步数"; Config.unit := "步"; Config.color := "#10B981";
         Config.icon := "walk-outline"; Config.chartType := bar |}
  | sleep =>
      {| Config.label := "睡眠"; Config.unit := "小时"; Config.color := "#8B5CF6";
         Config.icon := "moon-outline"; Config.chartType := line |}
  | water =>
      {| Config.label := "饮水"; Config.unit := "杯"; Config.color := "#0EA5E9";
         Config.icon := "water-outline"; Config.chartType := bar |}
  end.

(** getMetricConfig: the configuration of weight for a string that names no
    metric. *)
Definition getMetricConfig (metric : string) : Config.t :=
  match isValidMetric metric with
  | Some m => metricConfig m
  | None => metricConfig weight
  end.

Global Instance Trend_eq_dec : EqDecision Trend.
Proof. solve_decision. Defined.

(** What renderMetricCard shows of a summary: the current value with the
    number of decimals it is printed with, the average line, and the badge. *)
Record MetricCard := {
  cardValue : option (Q * nat);
  cardAverage : option Q;
  cardBadge : option Trend
}.

Definition renderMetricCard (stats : Stats) (metric : MetricType) : MetricCard :=
  let data := stats metric in
  {| cardValue :=
       (λ v, (v, if decide (metric = weight ∨ metric = sleep) then 1 else 0)%nat)
         <$> current data;
     cardAverage := avg data;
     cardBadge :=
       match avg data with
       | Some _ => if decide (trend data = none) then None else Some (trend data)
       | None => None
       end |}.

(** [xs.filter(f)] for an [f] that may throw. *)
Fixpoint filterThrowing {A} (f : A → Outcome bool) (xs : list A) : Outcome (list A) :=
  match xs with
  | [] => Returns []
  | x :: xs' =>
      keep ← f x; rest ← filterThrowing f xs';
      Returns (if keep : bool then x :: rest else rest)
  end.

(** What renderChart draws. *)
Inductive ChartView :=
  | NoDataView
  | LineChart (chartData : ChartData)
  | BarChart (chartData : ChartData).

Section Views.

Variable utcOffset : Z.

(** The callback of [records.filter] in getSelectedDateRecords. *)
Definition onSelectedDate (selectedDate : string) (r : HealthLog) : Outcome bool :=
  if falsy (logged_at r) then Returns false
  else
    recordDate ← format utcOffset (parseISO (logged_at r)) yyyy_MM_dd;
    Returns (bool_decide (recordDate = selectedDate)).

Definition getSelectedDateRecords (records : list HealthLog) (selectedDate : string)
  : Outcome (list HealthLog) :=
  filterThrowing (onSelectedDate selectedDate) records.

Definition renderChart (records : list HealthLog) (selectedMetric : MetricType)
    (timeRange : TimeRange) (now : Z) : Outcome ChartView :=
  chartData ← getChartData utcOffset records selectedMetric timeRange now;
  if decide (length (filter (λ r, metric_type r = metricKey selectedMetric) records) = 0%nat)
  then Returns NoDataView
  else match Config.chartType (getMetricConfig (metricKey selectedMetric)) with
       | line => Returns (LineChart chartData)
       | bar => Returns (BarChart chartData)
       end.

End Views.

(** ** The trends screen *)

Module Trends.

Record TrendPoint := { date : string; avg : Q }.

(** The payload of /health-logs/trends; [trend] is up, down or stable when
    it is there. *)
Record TrendsData := {
  points : option (list TrendPoint);
  trend : option Trend;
  weekly_change : option Q;
  unit : option string
}.

Record State := {
  data : option TrendsData;
  loading : bool;
  error : option string
}.

(** The three [useState] of the first render. *)
Definition initial : State := {| data := None; loading := true; error := None |}.

(** How apiGet settles; a rejection carries [e.message], empty when the
    error has none. *)
Inductive Response :=
  | Resolved (trendsData : TrendsData)
  | Rejected (message : string).

(** fetchTrends, from setLoading(true) to the finally block. *)
Definition fetchTrends (s : State) (r : Response) : State :=
  let s1 := {| data := data s; loading := true; error := None |} in
  let s2 :=
    match r with
    | Resolved trendsData =>
        match points trendsData with
        | None | Some [] =>
            {| data := data s1; loading := loading s1;
               error := Some "没有足够的数据来显示趋势。" |}
        | Some (_ :: _) =>
            {| data := Some trendsData; loading := loading s1; error := error s1 |}
        end
    | Rejected message =>
        {| data := data s1; loading := loading s1;
           error := Some (if decide (message = "") then "加载趋势数据失败" else message) |}
    end in
  {| data := data s2; loading := false; error := error s2 |}.

(** The branch renderContent takes: the spinner, the error text, the summary
    card and chart of the payload, or null. *)
Inductive Content :=
  | Spinner
  | ErrorText (message : string)
  | ChartOf (trendsData : TrendsData)
  | Nothing.

Definition showData (s : State) : Content :=
  match data s with
  | Some d => ChartOf d
  | None => Nothing
  end.

Definition renderContent (s : State) : Content :=
  if loading s then Spinner
  else match error s with
       | Some message => if decide (message = "") then showData s else ErrorText message
       | None => showData s
       end.

End Trends.

(** ** Sample records *)

Definition healthLog (n : Z) (metric : string) (v : Q) (at_ : LoggedAt) : HealthLog :=
  {| id_ := n; metric_type := metric; value1 := v; unit_ := ""; logged_at := at_ |}.

(** 2024-01-01T00:00:00Z, a Monday. *)
Definition jan1 : Z := 1704067200000.

(** * Properties *)

(** ** Rounding *)

Lemma Qfloor_half_bounds (a : Q) :
  (inject_Z (Qfloor (a + (1 # 2))) - (1 # 2) <= a)%Q ∧
  (a < inject_Z (Qfloor (a + (1 # 2))) + (1 # 2))%Q.
Proof.
  pose proof (Qfloor_le (a + (1 # 2))) as Hle.
  pose proof (Qlt_floor (a + (1 # 2))) as Hlt.
  rewrite inject_Z_plus in Hlt. change (inject_Z 1) with 1%Q in Hlt.
  split; lra.
Qed.

Lemma Qmake_tenths (n : Z) : (n # 10 == inject_Z n * (1 # 10))%Q.
Proof. exact (Qmake_Qdiv n 10). Qed.

(** The result has one decimal and is within half a tenth of the argument. *)
Lemma toFixed1_spec (x : Q) :
  ∃ n : Z, (toFixed1 x == n # 10)%Q ∧ (Qabs (toFixed1 x - x) <= 1 # 20)%Q.
Proof.
  unfold toFixed1.
  destruct (Qfloor_half_bounds (Qabs x * 10)) as [Hlo Hhi].
  set (n := Qfloor (Qabs x * 10 + (1 # 2))) in *. clearbody n.
  destruct (Qlt_le_dec x 0) as [Hneg | Hpos].
  - exists (- n). rewrite Qred_correct. split; [reflexivity |].
    rewrite Qmake_tenths, inject_Z_opp.
    rewrite Qabs_neg in Hlo, Hhi by (apply Qlt_le_weak, Hneg).
    generalize dependent (inject_Z n). intros q Hlo Hhi.
    apply Qabs_Qle_condition. split; lra.
  - exists n. rewrite Qred_correct. split; [reflexivity |].
    rewrite Qmake_tenths.
    rewrite Qabs_pos in Hlo, Hhi by exact Hpos.
    generalize dependent (inject_Z n). intros q Hlo Hhi.
    apply Qabs_Qle_condition. split; lra.
Qed.

Lemma toFixed1_proper (x y : Q) : (x == y)%Q → toFixed1 x = toFixed1 y.
Proof.
  intros Hxy. unfold toFixed1.
  assert (Qfloor (Qabs x * 10 + (1 # 2)) = Qfloor (Qabs y * 10 + (1 # 2))) as ->.
  { apply Qfloor_comp. rewrite Hxy. reflexivity. }
  destruct (Qlt_le_dec x 0), (Qlt_le_dec y 0); try reflexivity; lra.
Qed.

Lemma toFixed1_zero : toFixed1 0 = 0%Q.
Proof. reflexivity. Qed.

(** ** calculateStats, metric by metric *)

Lemma List_last_cons {A} (a x y : A) (l : list A) :
  List.last (a :: l) x = List.last (a :: l) y.
Proof.
  revert a. induction l as [| b l IH]; intros a; [reflexivity |].
  change (List.last (b :: l) x = List.last (b :: l) y). apply IH.
Qed.

Lemma last_cons_default {A} (x : A) (l : list A) : last (x :: l) = Some (List.last l x).
Proof.
  revert x. induction l as [| y l IH]; intros x; [reflexivity |].
  rewrite last_cons_cons, IH. f_equal.
  destruct l as [| a l]; [reflexivity |].
  change (List.last (a :: l) y = List.last (a :: l) x). apply List_last_cons.
Qed.

Section PerMetric.

Variable data : list HealthLog.

Lemma update_same stats metric :
  updateMetric data stats metric metric =
    match matching metric data with
    | [] => stats metric
    | first :: rest => metricStat metric first rest
    end.
Proof.
  unfold updateMetric. destruct (matching metric data); [reflexivity |].
  apply fn_lookup_insert.
Qed.

Lemma update_other stats metric metric' :
  metric ≠ metric' → updateMetric data stats metric metric' = stats metric'.
Proof.
  intros Hne. unfold updateMetric. destruct (matching metric data); [reflexivity |].
  by apply fn_lookup_insert_ne.
Qed.

Lemma foldl_update_absent metrics stats metric :
  metric ∉ metrics → foldl (updateMetric data) stats metrics metric = stats metric.
Proof.
  revert stats. induction metrics as [| m metrics IH]; intros stats Hnot; [reflexivity |].
  apply not_elem_of_cons in Hnot as [Hne Hnot]. simpl.
  rewrite IH by assumption. apply update_other. congruence.
Qed.

Lemma foldl_update_present metrics stats metric :
  NoDup metrics → metric ∈ metrics →
  foldl (updateMetric data) stats metrics metric = updateMetric data stats metric metric.
Proof.
  revert stats. induction metrics as [| m metrics IH]; intros stats Hnd Hin.
  - by apply elem_of_nil in Hin.
  - apply NoDup_cons in Hnd as [Hfresh Hnd]. simpl.
    apply elem_of_cons in Hin as [-> | Hin].
    + by rewrite foldl_update_absent.
    + rewrite IH by assumption. rewrite !update_same.
      destruct (matching metric data); [| reflexivity].
      apply update_other. intros ->. contradiction.
Qed.

(** The entry calculateStats leaves for a metric: the fresh summary when the
    metric has records, the entry of the captured table when it has none. *)
Lemma calculateStats_lookup stats metric :
  calculateStats stats data metric =
    match matching metric data with
    | [] => stats metric
    | first :: rest => metricStat metric first rest
    end.
Proof.
  unfold calculateStats.
  rewrite foldl_update_present.
  - apply update_same.
  - compute_done.
  - destruct metric; compute_done.
Qed.

End PerMetric.

(** A metric without records keeps whatever the captured table held. *)
Lemma calculateStats_keeps_captured stats data metric :
  matching metric data = [] → calculateStats stats data metric = stats metric.
Proof. intros Hnone. by rewrite calculateStats_lookup, Hnone. Qed.

(** With records, the captured table plays no part. *)
Lemma calculateStats_fresh stats stats' data metric :
  matching metric data ≠ [] →
  calculateStats stats data metric = calculateStats stats' data metric.
Proof.
  intros Hsome. rewrite !calculateStats_lookup.
  by destruct (matching metric data).
Qed.

(** So calculateStats alone is not a function of [data]: what it leaves for a
    metric without records is the entry of the table it was closed over. *)
Example calculateStats_depends_on_captured_table :
  let shown := calculateStats initialStats [healthLog 1 "weight" 70 Missing] in
  calculateStats shown [] weight = shown weight ∧
  calculateStats initialStats [] weight = emptyStat ∧
  shown weight ≠ emptyStat.
Proof. repeat split. discriminate. Qed.

(** ** The table loadData starts from *)

Lemma render_keeps cell s : render (Some cell) s = cell.
Proof.
  unfold render, useCallback. destruct cell as [kept []].
  by rewrite decide_True.
Qed.

(** Every render gets the loadData of the first one. *)
Lemma loadData_of_first_render today c :
  reachable today c → loadDataCell c = (loadData (initialState today), ()).
Proof.
  induction 1 as [| c e _ IH]; [reflexivity |].
  unfold step. cbn [loadDataCell]. by rewrite render_keeps.
Qed.

Lemma summaries_from_initial today c data :
  reachable today c → summaries c data = calculateStats initialStats data.
Proof.
  intros Hc. unfold summaries, step, handle. cbn [state].
  by rewrite (loadData_of_first_render today c Hc).
Qed.

(** ** Trend and change *)

Lemma threshold_positive metric : (0 < threshold (metricKey metric))%Q.
Proof. destruct metric; reflexivity. Qed.




(** What metricStat computes from two records or more. *)
Lemma metricStat_two_or_more metric first rest :
  rest ≠ [] →
  let raw := (value1 (List.last rest first) - value1 first)%Q in
  trend (metricStat metric first rest) = classify raw (threshold (metricKey metric)) ∧
  change (metricStat metric first rest) = toFixed1 raw.
Proof.
  intros Hrest. unfold metricStat.
  destruct rest as [| r rest]; [done |].
  rewrite decide_True by (simpl; lia). done.
Qed.



(** The two summaries the specification works out by hand. *)
Example summary_of_two_weights :
  let s := calculateStats initialStats
             [healthLog 1 "weight" 70.0 (Instant jan1);
              healthLog 2 "weight" 71.2 (Instant (jan1 + 4 * msPerDay))] weight in
  (∃ a, avg s = Some a ∧ (a == 70.6)%Q) ∧ (change s == 1.2)%Q ∧ trend s = up.
Proof. split; [by eexists | by repeat split]. Qed.

Example summary_of_two_step_counts :
  let s := calculateStats initialStats
             [healthLog 1 "steps" 3000 (Instant jan1);
              healthLog 2 "steps" 3100 (Instant (jan1 + msPerDay))] steps in
  change s = 100%Q ∧ trend s = stable.
Proof. repeat split. Qed.




(** C3.  After a load, a metric without any matching record shows no current
    value, no average, no minimum and no maximum, trend none and change 0. *)
Theorem no_records_no_summary today c data metric :
  reachable today c →
  matching metric data = [] →
  summaries c data metric =
    {| current := None; avg := None; min := None; max := None;
       trend := none; change := 0%Q |}.
Proof.
  intros Hc Hnone.
  rewrite (summaries_from_initial today c data Hc).
  by rewrite calculateStats_keeps_captured.
Qed.

Lemma no_records_no_summary_witness :
  let c := step (mount "2024-01-06") (Loaded [healthLog 1 "heartRate" 64 Missing]) in
  reachable "2024-01-06" c ∧
  stats (state c) heartRate ≠ emptyStat ∧
  summaries c [healthLog 2 "weight" 70 Missing] heartRate = emptyStat.
Proof.
  intros c.
  assert (reachable "2024-01-06" c) as Hc by (apply reachable_step; constructor).
  split; [exact Hc |]. split; [discriminate |].
  apply (no_records_no_summary "2024-01-06" c _ heartRate Hc). reflexivity.
Defined.

(** A value with one decimal is its own rounding. *)
Lemma toFixed1_one_decimal (x : Q) (n : Z) : (x == n # 10)%Q → (toFixed1 x == x)%Q.
Proof.
  intros Hx. destruct (toFixed1_spec x) as (k & Hk & Hclose).
  rewrite Hk in Hclose |- *. rewrite Hx in Hclose |- *. clear Hk Hx.
  apply Qabs_Qle_condition in Hclose as [Hlo Hhi].
  rewrite (Qmake_tenths k), (Qmake_tenths n) in Hlo, Hhi.
  assert (k = n) as ->; [| reflexivity].
  assert (inject_Z (k - n) < inject_Z 1)%Q as Hlt.
  { unfold Z.sub; rewrite inject_Z_plus, inject_Z_opp. change (inject_Z 1) with 1%Q.
    revert Hlo Hhi. generalize (inject_Z k), (inject_Z n).
    intros; lra. }
  assert (inject_Z (-1) < inject_Z (k - n))%Q as Hgt.
  { unfold Z.sub; rewrite inject_Z_plus, inject_Z_opp. change (inject_Z (-1)) with (-1)%Q.
    revert Hlo Hhi. generalize (inject_Z k), (inject_Z n).
    intros; lra. }
  rewrite <- Zlt_Qlt in Hlt, Hgt. lia.
Qed.

Lemma orNull_nonzero (v : Q) : ¬ (v == 0)%Q → orNull v = Some v.
Proof.
  intros Hv. unfold orNull. destruct (Qeq_bool v 0) eqn:E; [| reflexivity].
  by apply Qeq_bool_iff in E.
Qed.

Lemma orNull_zero (v : Q) : (v == 0)%Q → orNull v = None.
Proof. intros Hv. unfold orNull. by apply Qeq_bool_iff in Hv as ->. Qed.

(** C4, as amended.  With exactly one matching record of value v, the average,
    the minimum and the maximum are all v rounded to one decimal place (v
    itself when it has one decimal), the trend is none and the change 0; the
    current value is v when v is not zero. *)
Theorem single_record_summary stats data metric r :
  matching metric data = [r] →
  let v := value1 r in
  let s := calculateStats stats data metric in
  avg s = Some (toFixed1 v) ∧ min s = Some (toFixed1 v) ∧ max s = Some (toFixed1 v) ∧
  (∀ n : Z, (v == n # 10)%Q → (toFixed1 v == v)%Q) ∧
  (¬ (v == 0)%Q → current s = Some v) ∧
  trend s = none ∧ change s = 0%Q.
Proof.
  intros Hone v s. subst v s.
  rewrite calculateStats_lookup, Hone. unfold metricStat.
  rewrite decide_False by (simpl; lia). cbn.
  repeat split.
  - f_equal. apply toFixed1_proper. unfold reduceSum, lengthQ. cbn. field.
  - intros n. apply toFixed1_one_decimal.
  - apply orNull_nonzero.
Qed.

Lemma single_record_summary_witness :
  let r := healthLog 1 "sleep" 7.25 Missing in
  let s := calculateStats initialStats [healthLog 0 "steps" 10 Missing; r] sleep in
  matching sleep [healthLog 0 "steps" 10 Missing; r] = [r] ∧
  current s = Some 7.25%Q ∧ avg s = Some 7.3%Q ∧ trend s = none.
Proof.
  intros r s.
  assert (matching sleep [healthLog 0 "steps" 10 Missing; r] = [r]) as Hone by reflexivity.
  split; [exact Hone |].
  pose proof (single_record_summary initialStats _ sleep r Hone) as H.
  cbv zeta in H. destruct H as (Havg & _ & _ & _ & Hcurrent & Htrend & _).
  split; [apply Hcurrent; discriminate |].
  split; [unfold s; rewrite Havg; reflexivity | exact Htrend].
Defined.

(** C4, as stated, fails: a single weight record of 70.25 kg has current
    70.25 but average, minimum and maximum 70.3. *)
Lemma single_record_average_is_rounded :
  let r := healthLog 1 "weight" 70.25 Missing in
  let s := calculateStats initialStats [r] weight in
  matching weight [r] = [r] ∧
  current s = Some (value1 r) ∧
  avg s = Some 70.3%Q ∧ min s = Some 70.3%Q ∧ max s = Some 70.3%Q ∧
  ¬ (70.3 == value1 r)%Q.
Proof. repeat split. discriminate. Qed.

(** C10.  When the last matching record of a metric has value 0, the current
    value is reported absent although the metric has records. *)
Theorem zero_current_is_absent stats data metric lst :
  last (matching metric data) = Some lst →
  (value1 lst == 0)%Q →
  matching metric data ≠ [] ∧ current (calculateStats stats data metric) = None.
Proof.
  intros Hlast Hzero. rewrite calculateStats_lookup.
  destruct (matching metric data) as [| first rest]; [discriminate |].
  split; [discriminate |].
  rewrite last_cons_default in Hlast. injection Hlast as <-.
  by apply (orNull_zero (value1 (List.last rest first))).
Qed.

Lemma zero_current_is_absent_witness :
  let data := [healthLog 1 "water" 3 Missing; healthLog 2 "water" 0 Missing] in
  last (matching water data) = Some (healthLog 2 "water" 0 Missing) ∧
  current (calculateStats initialStats data water) = None ∧
  avg (calculateStats initialStats data water) = Some (3 # 2)%Q.
Proof.
  intros data.
  assert (last (matching water data) = Some (healthLog 2 "water" 0 Missing)) as Hlast
    by reflexivity.
  split; [exact Hlast |].
  split; [| reflexivity].
  apply (zero_current_is_absent initialStats data water _ Hlast). reflexivity.
Defined.

(** C9.  The summaries a load produces are a function of the loaded data
    alone: whatever the two screens showed before, the same data gives the
    same summary for every metric, the metrics without records included. *)
Theorem summaries_depend_on_data_only today c1 c2 data metric :
  reachable today c1 →
  reachable today c2 →
  summaries c1 data metric = summaries c2 data metric.
Proof.
  intros H1 H2.
  by rewrite (summaries_from_initial today c1 data H1),
             (summaries_from_initial today c2 data H2).
Qed.

Lemma summaries_depend_on_data_only_witness :
  let c1 := mount "2024-01-06" in
  let c2 := step c1 (Loaded [healthLog 1 "weight" 70 Missing]) in
  reachable "2024-01-06" c1 ∧ reachable "2024-01-06" c2 ∧
  stats (state c1) weight ≠ stats (state c2) weight ∧
  matching weight [healthLog 2 "steps" 900 Missing] = [] ∧
  summaries c1 [healthLog 2 "steps" 900 Missing] weight
  = summaries c2 [healthLog 2 "steps" 900 Missing] weight.
Proof.
  intros c1 c2.
  assert (reachable "2024-01-06" c1) as H1 by constructor.
  assert (reachable "2024-01-06" c2) as H2 by (apply reachable_step; exact H1).
  split; [exact H1 |]. split; [exact H2 |].
  split; [discriminate |]. split; [reflexivity |].
  apply (summaries_depend_on_data_only "2024-01-06" c1 c2 _ weight H1 H2).
Defined.

(** ** The records of the chart *)

Lemma insertSorted_Permutation {A} (before : A → A → bool) (r : A) (l : list A) :
  insertSorted before r l ≡ₚ r :: l.
Proof.
  induction l as [| x l IH]; simpl; [done |].
  destruct (before x r); [| done].
  rewrite IH. apply Permutation_swap.
Qed.

Lemma sortStable_Permutation {A} (before : A → A → bool) (l : list A) :
  sortStable before l ≡ₚ l.
Proof.
  induction l as [| x l IH]; [done |].
  unfold sortStable in *. simpl.
  by rewrite insertSorted_Permutation, IH.
Qed.

Section StableSort.

Context {A : Type} (before : A → A → bool).
Hypothesis before_asym : ∀ a b, before a b = true → before b a = false.

Lemma insertSorted_HdRel x r l :
  (inOrder before) x r → HdRel (inOrder before) x l → HdRel (inOrder before) x (insertSorted before r l).
Proof.
  intros Hxr Hhd. destruct l as [| y l]; simpl; [by constructor |].
  destruct (before y r); constructor; [by inversion Hhd | done].
Qed.

Lemma insertSorted_Sorted r l :
  Sorted (inOrder before) l → Sorted (inOrder before) (insertSorted before r l).
Proof.
  induction 1 as [| x l Hsorted IH Hhd]; simpl; [by repeat constructor |].
  destruct (before x r) eqn:E.
  - constructor; [exact IH |].
    apply insertSorted_HdRel; [by apply before_asym | exact Hhd].
  - repeat constructor; done.
Qed.

Lemma sortStable_Sorted l : Sorted (inOrder before) (sortStable before l).
Proof.
  induction l as [| x l IH]; [constructor |].
  apply insertSorted_Sorted, IH.
Qed.

End StableSort.

Lemma Sorted_weaken {A} (R R' : relation A) (l : list A) :
  (∀ a b, R a b → R' a b) → Sorted R l → Sorted R' l.
Proof.
  intros Himpl. induction 1 as [| x l _ IH Hhd]; constructor; [exact IH |].
  destruct Hhd; constructor. by apply Himpl.
Qed.

Lemma earlier_asym a b : earlier a b = true → earlier b a = false.
Proof.
  unfold earlier. destruct (parseISO (logged_at a)), (parseISO (logged_at b)); try done.
  intros H%bool_decide_eq_true. apply bool_decide_eq_false. lia.
Qed.

Lemma inChart_spec startDate metric r :
  inChart startDate metric r ↔
  metric_type r = metricKey metric ∧ ∃ t, logged_at r = Instant t ∧ startDate ≤ t.
Proof.
  unfold inChart. destruct (logged_at r) as [| raw | t]; simpl.
  - split; [done | by intros (_ & t & ? & _)].
  - split; [done | by intros (_ & t & ? & _)].
  - rewrite andb_True, !bool_decide_spec. split.
    + intros [? ?]. eauto.
    + intros (? & t' & [= <-] & ?). done.
Qed.

Lemma elem_of_selectedRecords records metric range now r :
  r ∈ selectedRecords records metric range now ↔
  r ∈ records ∧ metric_type r = metricKey metric ∧
  ∃ t, logged_at r = Instant t ∧ now - daysToShow range * msPerDay ≤ t.
Proof.
  unfold selectedRecords. rewrite sortStable_Permutation, list_elem_of_filter.
  rewrite inChart_spec. unfold subDays. tauto.
Qed.

(** The records of the chart are in the order of their instants. *)
Lemma selectedRecords_sorted records metric range now :
  Sorted (λ a b, ∀ ta tb, instantOf a = Some ta → instantOf b = Some tb → ta ≤ tb)
         (selectedRecords records metric range now).
Proof.
  eapply Sorted_weaken; [| apply (sortStable_Sorted earlier earlier_asym)].
  intros a b Hab ta tb Ha Hb. unfold inOrder, earlier, instantOf in *.
  rewrite Ha, Hb in Hab. apply bool_decide_eq_false in Hab. lia.
Qed.

(** ** Grouping by day label *)

Lemma foldl_Bucket_add (b : Bucket.t) (day : list HealthLog) :
  foldl (λ b r, Bucket.add b (value1 r)) b day =
    {| Bucket.sum := fold_left Qplus (value1 <$> day) (Bucket.sum b);
       Bucket.count := Bucket.count b + Z.of_nat (length day) |}.
Proof.
  revert b. induction day as [| r day IH]; intros b; simpl.
  - destruct b. simpl. f_equal. lia.
  - rewrite IH. simpl. f_equal. lia.
Qed.

Lemma mean_of_bucket (day : list HealthLog) :
  Bucket.mean (foldl (λ b r, Bucket.add b (value1 r)) Bucket.empty day)
  = mean (value1 <$> day).
Proof.
  rewrite foldl_Bucket_add. unfold Bucket.mean, mean, reduceSum, lengthQ. simpl.
  by rewrite length_fmap.
Qed.

Lemma mapThrowing_returns {A B} (f : A → Outcome B) (g : A → B) (xs : list A) :
  (∀ x, x ∈ xs → f x = Returns (g x)) → mapThrowing f xs = Returns (g <$> xs).
Proof.
  induction xs as [| x xs IH]; intros Hf; [reflexivity |].
  simpl. rewrite (Hf x) by left. simpl.
  rewrite IH; [reflexivity |]. intros y Hy. apply Hf. by right.
Qed.

Lemma sortedKeys_spec {V} (o : gmap string V) :
  StronglySorted String.le (sortedKeys o) ∧ NoDup (sortedKeys o) ∧
  ∀ key, key ∈ sortedKeys o ↔ is_Some (o !! key).
Proof.
  unfold sortedKeys. split; [| split].
  - apply (StronglySorted_merge_sort String.le).
  - rewrite merge_sort_Permutation. apply NoDup_fst_map_to_list.
  - intros key. rewrite merge_sort_Permutation, list_elem_of_fmap. split.
    + intros ([k v] & -> & Hin). apply elem_of_map_to_list in Hin. by exists v.
    + intros [v Hv]. exists (key, v). split; [done |]. by apply elem_of_map_to_list.
Qed.

Section Grouping.

Variable utcOffset : Z.

Lemma addToGroup_returns groupedData r t :
  logged_at r = Instant t →
  let label := formatValid utcOffset t MM_dd in
  addToGroup utcOffset groupedData r =
    Returns (<[label := Bucket.add (default Bucket.empty (groupedData !! label)) (value1 r)]>
               groupedData).
Proof.
  intros Ht label. unfold addToGroup. rewrite Ht. simpl. fold label.
  destruct (groupedData !! label) as [b |] eqn:E; simpl.
  - by rewrite E.
  - by rewrite lookup_insert_eq, insert_insert_eq.
Qed.

Lemma onDay_cons label r rs :
  onDay utcOffset label (r :: rs) =
    if decide (dayLabel utcOffset r = Some label)
    then r :: onDay utcOffset label rs else onDay utcOffset label rs.
Proof. unfold onDay. by rewrite filter_cons. Qed.

Lemma addAll_cons b r day :
  addAll b (r :: day) = addAll (Some (Bucket.add (default Bucket.empty b) (value1 r))) day.
Proof. by destruct day. Qed.

(** forEach over records with readable timestamps never throws, and leaves
    under each label the bucket of the records of that label. *)
Lemma forEach_addToGroup rs groupedData :
  Forall (λ r, is_Some (instantOf r)) rs →
  ∃ grouped,
    forEach (addToGroup utcOffset) rs groupedData = Returns grouped ∧
    ∀ label, grouped !! label = addAll (groupedData !! label) (onDay utcOffset label rs).
Proof.
  intros Hvalid. revert groupedData.
  induction Hvalid as [| r rs [t Ht] _ IH]; intros groupedData.
  - exists groupedData. done.
  - unfold instantOf in Ht. destruct (logged_at r) as [| raw | t'] eqn:Hat; try done.
    simpl in Ht. injection Ht as ->. simpl.
    rewrite (addToGroup_returns _ _ t Hat). simpl.
    destruct (IH (<[formatValid utcOffset t MM_dd :=
                     Bucket.add (default Bucket.empty
                                   (groupedData !! formatValid utcOffset t MM_dd))
                                (value1 r)]> groupedData))
      as (grouped & -> & Hgrouped).
    exists grouped. split; [done |]. intros label. rewrite Hgrouped, onDay_cons.
    assert (dayLabel utcOffset r = Some (formatValid utcOffset t MM_dd)) as Hlabel
      by (unfold dayLabel, instantOf; by rewrite Hat).
    destruct (decide (dayLabel utcOffset r = Some label)) as [Heq | Hne].
    + rewrite Hlabel in Heq. injection Heq as <-.
      by rewrite lookup_insert_eq, addAll_cons.
    + rewrite lookup_insert_ne by congruence. done.
Qed.

Lemma selectedRecords_valid records metric range now :
  Forall (λ r, is_Some (instantOf r)) (selectedRecords records metric range now).
Proof.
  apply Forall_forall. intros r (_ & _ & t & Ht & _)%elem_of_selectedRecords.
  unfold instantOf. rewrite Ht. by eexists.
Qed.

Lemma groupByLabel_lookup rs :
  Forall (λ r, is_Some (instantOf r)) rs →
  ∃ grouped,
    groupByLabel utcOffset rs = Returns grouped ∧
    ∀ label,
      grouped !! label =
        match onDay utcOffset label rs with
        | [] => None
        | day => Some (foldl (λ b r, Bucket.add b (value1 r)) Bucket.empty day)
        end.
Proof.
  intros Hvalid. destruct (forEach_addToGroup rs ∅ Hvalid) as (grouped & Hrun & Hlookup).
  exists grouped. split; [exact Hrun |]. intros label.
  rewrite Hlookup, lookup_empty. unfold addAll. by destruct (onDay utcOffset label rs).
Qed.

End Grouping.

(** ** getChartData *)

Section Chart.

Variable utcOffset : Z.

Lemma onDay_nonempty label rs :
  onDay utcOffset label rs ≠ [] ↔ ∃ r, r ∈ rs ∧ dayLabel utcOffset r = Some label.
Proof.
  unfold onDay. split.
  - intros Hne. destruct (filter _ rs) as [| r day] eqn:E; [done |].
    exists r. apply and_comm.
    apply (list_elem_of_filter (λ r, dayLabel utcOffset r = Some label)).
    rewrite E. left.
  - intros (r & Hin & Hlabel) Hnil.
    assert (r ∈ filter (λ r, dayLabel utcOffset r = Some label) rs) as Hr
      by (by apply list_elem_of_filter).
    rewrite Hnil in Hr. by apply elem_of_nil in Hr.
Qed.

(** The chart in terms of the selected records: the labels are the day labels
    of the selected records, each once, in the order of strings, and every
    label carries the mean of its records; without any label the chart is the
    single point that stands for "no data". *)
Lemma getChartData_series records metric range now :
  let sel := selectedRecords records metric range now in
  ∃ dates,
    StronglySorted String.le dates ∧ NoDup dates ∧
    (∀ label, label ∈ dates ↔ ∃ r, r ∈ sel ∧ dayLabel utcOffset r = Some label) ∧
    getChartData utcOffset records metric range now =
      Returns (if decide (length dates = 0%nat) then noData
               else {| labels := dates;
                       data := (λ label, mean (value1 <$> onDay utcOffset label sel))
                                 <$> dates |}).
Proof.
  intros sel.
  destruct (groupByLabel_lookup utcOffset sel (selectedRecords_valid _ _ _ _))
    as (grouped & Hrun & Hlookup).
  destruct (sortedKeys_spec grouped) as (Hsorted & Hnodup & Hkeys).
  assert (∀ label, label ∈ sortedKeys grouped ↔ onDay utcOffset label sel ≠ []) as Hdays.
  { intros label. rewrite Hkeys, Hlookup.
    destruct (onDay utcOffset label sel); split; try done.
    all: by intros [? ?]. }
  exists (sortedKeys grouped). repeat split; try done.
  - by intros ?%Hdays%onDay_nonempty.
  - by intros ?%onDay_nonempty%Hdays.
  - unfold getChartData. fold sel. rewrite Hrun. simpl.
    rewrite (mapThrowing_returns _
               (λ label, mean (value1 <$> onDay utcOffset label sel))).
    + simpl. by destruct (decide (length (sortedKeys grouped) = 0%nat)).
    + intros label Hin%Hdays. rewrite Hlookup.
      destruct (onDay utcOffset label sel) as [| r day] eqn:E; [done |].
      by rewrite mean_of_bucket.
Qed.

(** getChartData returns, whatever the records are. *)
Lemma getChartData_returns records metric range now :
  ∃ chart, getChartData utcOffset records metric range now = Returns chart.
Proof.
  destruct (getChartData_series records metric range now) as (dates & _ & _ & _ & ->).
  by eexists.
Qed.

End Chart.

Lemma singleton_of_NoDup {A} (x : A) (l : list A) :
  NoDup l → x ∈ l → (∀ y, y ∈ l → y = x) → l = [x].
Proof.
  intros Hnd Hx Hall. destruct l as [| a l]; [by apply elem_of_nil in Hx |].
  assert (a = x) as -> by (apply Hall; left).
  destruct l as [| b l]; [done |].
  assert (b = x) as -> by (apply Hall; right; left).
  apply NoDup_cons in Hnd as [Hnot _]. exfalso. apply Hnot. left.
Qed.

(** The two cases of the chart: no selected record, or at least one. *)
Lemma getChartData_selected utcOffset records metric range now :
  let sel := selectedRecords records metric range now in
  let chart := getChartData utcOffset records metric range now in
  (sel = [] → chart = Returns noData) ∧
  (sel ≠ [] →
     ∃ cd, chart = Returns cd ∧
       StronglySorted String.le (labels cd) ∧ NoDup (labels cd) ∧
       (∀ label, label ∈ labels cd ↔ ∃ r, r ∈ sel ∧ dayLabel utcOffset r = Some label) ∧
       data cd = (λ label, mean (value1 <$> onDay utcOffset label sel)) <$> labels cd).
Proof.
  intros sel chart. subst chart.
  destruct (getChartData_series utcOffset records metric range now)
    as (dates & Hsorted & Hnodup & Hdates & ->). fold sel in Hdates |- *.
  pose proof (selectedRecords_valid records metric range now) as Hvalid.
  fold sel in Hvalid. clearbody sel.
  split.
  - intros ->. destruct dates as [| label dates]; [done |].
    destruct (Hdates label) as [(r & Hr & _) _]; [left |].
    by apply elem_of_nil in Hr.
  - intros Hsome. destruct dates as [| label dates].
    + destruct Hvalid as [| r sel' [t Ht] _]; [done |].
      exfalso. eapply elem_of_nil, (Hdates (formatValid utcOffset t MM_dd)).
      exists r. split; [left |]. unfold dayLabel. by rewrite Ht.
    + eexists. split; [reflexivity |]. simpl. done.
Qed.

(** C5, as amended.  When at least one record is selected (matching, in the
    window, sorted by time), the chart has one point per day label MM/dd of
    the selected records, in the lexicographic order of the labels, and the
    value of a point is the arithmetic mean of the records of its label; two
    selected records of one day with values 10 and 20 give one point of mean
    15.  When no record is selected the chart is the single "no data" point. *)
Theorem chart_groups_by_day_label utcOffset records metric range now :
  let sel := selectedRecords records metric range now in
  let chart := getChartData utcOffset records metric range now in
  Sorted (λ a b, ∀ ta tb, instantOf a = Some ta → instantOf b = Some tb → ta ≤ tb) sel ∧
  (sel = [] → chart = Returns noData) ∧
  (sel ≠ [] →
     ∃ cd, chart = Returns cd ∧
       StronglySorted String.le (labels cd) ∧ NoDup (labels cd) ∧
       (∀ label, label ∈ labels cd ↔ ∃ r, r ∈ sel ∧ dayLabel utcOffset r = Some label) ∧
       data cd = (λ label, mean (value1 <$> onDay utcOffset label sel)) <$> labels cd) ∧
  (∀ r1 r2 label,
     sel = [r1; r2] →
     dayLabel utcOffset r1 = Some label → dayLabel utcOffset r2 = Some label →
     (value1 r1 == 10)%Q → (value1 r2 == 20)%Q →
     ∃ v, chart = Returns {| labels := [label]; data := [v] |} ∧ (v == 15)%Q).
Proof.
  intros sel chart.
  split; [apply selectedRecords_sorted |].
  destruct (getChartData_selected utcOffset records metric range now) as [Hnone Hsome].
  split; [exact Hnone |]. split; [exact Hsome |]. clear Hnone Hsome.
  subst chart.
  destruct (getChartData_series utcOffset records metric range now)
    as (dates & Hsorted & Hnodup & Hdates & ->). fold sel in Hdates |- *.
  clearbody sel.
  intros r1 r2 label -> H1 H2 Hv1 Hv2.
  assert (dates = [label]) as ->.
  { apply singleton_of_NoDup; [done | |].
    - apply Hdates. exists r1. split; [left | done].
    - intros l (r & Hr & Hl)%Hdates.
      apply elem_of_cons in Hr as [-> | Hr]; [congruence |].
      apply elem_of_cons in Hr as [-> | Hr]; [congruence |].
      by apply elem_of_nil in Hr. }
  simpl. eexists. split; [reflexivity |].
  rewrite !onDay_cons. unfold onDay. rewrite filter_nil.
  rewrite !decide_True by done.
  unfold mean, reduceSum, lengthQ. simpl. rewrite Hv1, Hv2. reflexivity.
Qed.

Lemma chart_groups_by_day_label_witness :
  let r1 := healthLog 1 "weight" 10 (Instant (jan1 + 5 * msPerDay + 3600000)) in
  let r2 := healthLog 2 "weight" 20 (Instant (jan1 + 5 * msPerDay + 7200000)) in
  let now := jan1 + 6 * msPerDay in
  selectedRecords [r2; r1] weight week now = [r1; r2] ∧
  dayLabel 0 r1 = Some "01/06" ∧ dayLabel 0 r2 = Some "01/06" ∧
  ∃ v, getChartData 0 [r2; r1] weight week now
       = Returns {| labels := ["01/06"]; data := [v] |} ∧ (v == 15)%Q.
Proof.
  intros r1 r2 now.
  assert (selectedRecords [r2; r1] weight week now = [r1; r2]) as Hsel by reflexivity.
  assert (dayLabel 0 r1 = Some "01/06") as H1 by reflexivity.
  assert (dayLabel 0 r2 = Some "01/06") as H2 by reflexivity.
  repeat (split; [assumption |]).
  pose proof (chart_groups_by_day_label 0 [r2; r1] weight week now) as H.
  cbv zeta in H. destruct H as (_ & _ & _ & Hscenario).
  apply (Hscenario r1 r2 "01/06" Hsel H1 H2); reflexivity.
Defined.

(** C5, as stated, fails: with no weight record to chart there is no day, yet
    the chart has one point, labelled "no data", of value 0. *)
Lemma chart_without_selection_has_a_point :
  let records := [healthLog 1 "steps" 3000 (Instant jan1)] in
  let sel := selectedRecords records weight week jan1 in
  sel = [] ∧
  getChartData 0 records weight week jan1
  = Returns {| labels := ["暂无数据"]; data := [0%Q] |} ∧
  ¬ (∀ label, label ∈ ["暂无数据"] ↔ ∃ r, r ∈ sel ∧ dayLabel 0 r = Some label).
Proof.
  intros records sel.
  split; [reflexivity |]. split; [reflexivity |].
  intros H. destruct (H "暂无数据") as [(r & Hr & _) _]; [left |].
  by apply elem_of_nil in Hr.
Qed.

(** C6.  With the week range, a record is among the records of the chart if
    and only if it matches the metric and its timestamp is at or after the
    reference instant minus 7 days; a record logged strictly earlier is left
    out, and the labels of the chart are the day labels of the records that
    pass. *)
Theorem chart_window_lower_bound records metric now r :
  (r ∈ selectedRecords records metric week now ↔
     r ∈ records ∧ metric_type r = metricKey metric ∧
     ∃ t, logged_at r = Instant t ∧ now - 7 * msPerDay ≤ t) ∧
  (∀ t, logged_at r = Instant t → t < now - 7 * msPerDay →
        r ∉ selectedRecords records metric week now) ∧
  (∀ utcOffset,
     selectedRecords records metric week now ≠ [] →
     ∃ cd, getChartData utcOffset records metric week now = Returns cd ∧
       ∀ label, label ∈ labels cd ↔
         ∃ r' t, r' ∈ records ∧ metric_type r' = metricKey metric ∧
                 logged_at r' = Instant t ∧ now - 7 * msPerDay ≤ t ∧
                 formatValid utcOffset t MM_dd = label).
Proof.
  split; [apply (elem_of_selectedRecords records metric week now r) |].
  split.
  - intros t Ht Hold (_ & _ & t' & Ht' & Hin)%elem_of_selectedRecords.
    rewrite Ht in Ht'. injection Ht' as <-. simpl in Hin. lia.
  - intros utcOffset Hsome.
    destruct (getChartData_selected utcOffset records metric week now)
      as [_ Hseries].
    destruct (Hseries Hsome) as (cd & Hcd & _ & _ & Hlabels & _).
    exists cd. split; [exact Hcd |]. intros label. rewrite Hlabels. split.
    + intros (r' & (Hin & Hm & t & Ht & Hwin)%elem_of_selectedRecords & Hlabel).
      exists r', t. unfold dayLabel, instantOf in Hlabel. rewrite Ht in Hlabel.
      injection Hlabel as <-. done.
    + intros (r' & t & Hin & Hm & Ht & Hwin & <-). exists r'. split.
      * apply elem_of_selectedRecords. eauto.
      * unfold dayLabel, instantOf. by rewrite Ht.
Qed.

(** Records of different years share a point when they share a label: with
    the year range on 2025-03-01 at noon, a record of 2024-03-01 18:00 and one
    of 2025-03-01 09:00 make one point "03/01". *)
Example chart_shares_label_across_years :
  let now := 20148 * msPerDay + 12 * 3600000 in
  let r1 := healthLog 1 "weight" 10 (Instant (19783 * msPerDay + 18 * 3600000)) in
  let r2 := healthLog 2 "weight" 20 (Instant (20148 * msPerDay + 9 * 3600000)) in
  formatValid 0 (19783 * msPerDay + 18 * 3600000) yyyy_MM_dd = "2024-03-01" ∧
  formatValid 0 (20148 * msPerDay + 9 * 3600000) yyyy_MM_dd = "2025-03-01" ∧
  getChartData 0 [r1; r2] weight year now
  = Returns {| labels := ["03/01"]; data := [30 # 2] |}.
Proof. repeat split. Qed.

Lemma chart_window_lower_bound_witness :
  let now := jan1 + 7 * msPerDay in
  let onBound := healthLog 1 "weight" 70 (Instant jan1) in
  let tooOld := healthLog 2 "weight" 71 (Instant (jan1 - 1)) in
  let records := [tooOld; healthLog 3 "weight" 72 Missing; onBound] in
  (onBound ∈ selectedRecords records weight week now) ∧
  (tooOld ∉ selectedRecords records weight week now) ∧
  selectedRecords records weight week now = [onBound].
Proof.
  intros now onBound tooOld records.
  split; [| split; [| reflexivity]].
  - apply (chart_window_lower_bound records weight now onBound).
    split; [right; right; left |]. split; [reflexivity |].
    exists jan1. split; [reflexivity | vm_compute; discriminate].
  - apply (proj1 (proj2 (chart_window_lower_bound records weight now tooOld)) (jan1 - 1));
      [reflexivity | reflexivity].
Defined.

(** ** getWeekComparison *)



Lemma inWeek_spec weekStart weekEnd metric r :
  inWeek weekStart weekEnd metric r ↔
  metric_type r = metricKey metric ∧
  ∃ t, logged_at r = Instant t ∧ weekStart ≤ t ≤ weekEnd.
Proof.
  unfold inWeek. destruct (logged_at r) as [| raw | t]; simpl.
  - split; [done | by intros (_ & t & ? & _)].
  - split; [done | by intros (_ & t & ? & _)].
  - rewrite !andb_True, !bool_decide_spec. split.
    + intros [[? ?] ?]. eauto.
    + intros (? & t' & [= <-] & ? & ?). done.
Qed.

Section Weeks.

Variable utcOffset : Z.


(** Last week is the week just before the current one. *)
Lemma startOfWeek_subDays t :
  startOfWeek utcOffset (subDays t 7) = startOfWeek utcOffset t - 7 * msPerDay.
Proof.
  unfold startOfWeek, getDay, localDay, subDays, msPerDay.
  replace (t - 7 * 86400000 + utcOffset) with (t + utcOffset + (-7) * 86400000) by lia.
  rewrite Z.div_add by lia.
  replace ((t + utcOffset) `div` 86400000 + -7 + 4)
    with ((t + utcOffset) `div` 86400000 + 4 + (-1) * 7) by lia.
  rewrite Z.mod_add by lia. lia.
Qed.

Lemma elem_of_currentWeekRecords records metric today r :
  r ∈ currentWeekRecords utcOffset records metric today ↔
  r ∈ records ∧ metric_type r = metricKey metric ∧
  ∃ t, logged_at r = Instant t ∧
       startOfWeek utcOffset today ≤ t ≤ endOfWeek utcOffset today.
Proof.
  unfold currentWeekRecords. rewrite list_elem_of_filter, inWeek_spec. tauto.
Qed.

Lemma elem_of_lastWeekRecords records metric today r :
  r ∈ lastWeekRecords utcOffset records metric today ↔
  r ∈ records ∧ metric_type r = metricKey metric ∧
  ∃ t, logged_at r = Instant t ∧
       startOfWeek utcOffset today - 7 * msPerDay ≤ t < startOfWeek utcOffset today.
Proof.
  unfold lastWeekRecords, endOfWeek. rewrite list_elem_of_filter, inWeek_spec.
  rewrite startOfWeek_subDays. split.
  - intros [(? & t & ? & ?) ?]. split; [done |]. split; [done |]. exists t. split; [done | lia].
  - intros (? & ? & t & ? & ?). split; [| done]. split; [done |]. exists t. split; [done | lia].
Qed.

End Weeks.


(** The averages returned beside the change are rounded on their own: means
    of 1.04 and 0.96 are both shown as 1 while the change is 0.1. *)
Example week_change_uses_unrounded_means :
  let today := jan1 + 9 * msPerDay in
  let comparison :=
    getWeekComparison 0 [healthLog 1 "sleep" 1.04 (Instant (jan1 + 8 * msPerDay));
                         healthLog 2 "sleep" 0.96 (Instant (jan1 + msPerDay))]
                      sleep today in
  Week.currentWeekAvg comparison = 1%Q ∧ Week.lastWeekAvg comparison = 1%Q ∧
  Week.change comparison = 0.1%Q.
Proof. repeat split. Qed.


(** ** Records whose timestamp cannot be read *)

Section Unreadable.

Variable utcOffset : Z.

(** The chart and the week comparison leave such a record out, and
    calculateStats counts it. *)
Lemma unreadable_timestamp_left_out records metric range now r :
  instantOf r = None →
  (r ∉ selectedRecords records metric range now) ∧
  (r ∉ currentWeekRecords utcOffset records metric now) ∧
  (r ∉ lastWeekRecords utcOffset records metric now) ∧
  (r ∈ records → metric_type r = metricKey metric → r ∈ matching metric records).
Proof.
  intros Hnone. unfold instantOf in Hnone. repeat split.
  - intros (_ & _ & t & Ht & _)%elem_of_selectedRecords. by rewrite Ht in Hnone.
  - intros (_ & _ & t & Ht & _)%elem_of_currentWeekRecords. by rewrite Ht in Hnone.
  - intros (_ & _ & t & Ht & _)%elem_of_lastWeekRecords. by rewrite Ht in Hnone.
  - intros Hin Hm. by apply list_elem_of_filter.
Qed.

Lemma markRecord_outcome markedDates r :
  match logged_at r with
  | Unparsable _ => markRecord utcOffset markedDates r = Throws RangeError_invalid_time
  | _ => ∃ markedDates', markRecord utcOffset markedDates r = Returns markedDates'
  end.
Proof.
  unfold markRecord. destruct (logged_at r) as [| raw | t]; simpl.
  - by eexists.
  - reflexivity.
  - destruct (markedDates !! formatValid utcOffset t yyyy_MM_dd); by eexists.
Qed.

(** getMarkedDates guards against a missing timestamp only: one record whose
    timestamp is a string parseISO cannot read makes it throw. *)
Lemma forEach_markRecord_throws records markedDates r raw :
  r ∈ records → logged_at r = Unparsable raw →
  forEach (markRecord utcOffset) records markedDates = Throws RangeError_invalid_time.
Proof.
  intros Hin Hraw. revert markedDates.
  induction Hin as [r records | r r0 records Hin IH]; intros markedDates; simpl.
  - pose proof (markRecord_outcome markedDates r) as H. rewrite Hraw in H.
    by rewrite H.
  - pose proof (markRecord_outcome markedDates r0) as H.
    destruct (logged_at r0) as [| raw0 | t0].
    + destruct H as [markedDates' ->]. simpl. by apply IH.
    + by rewrite H.
    + destruct H as [markedDates' ->]. simpl. by apply IH.
Qed.

Lemma getMarkedDates_throws records selectedDate r raw :
  r ∈ records → logged_at r = Unparsable raw →
  getMarkedDates utcOffset records selectedDate = Throws RangeError_invalid_time.
Proof.
  intros Hin Hraw. unfold getMarkedDates.
  by rewrite (forEach_markRecord_throws records ∅ r raw Hin Hraw).
Qed.

(** With timestamps that are missing or readable it returns. *)
Lemma getMarkedDates_returns records selectedDate :
  Forall (λ r, ∀ raw, logged_at r ≠ Unparsable raw) records →
  ∃ markedDates, getMarkedDates utcOffset records selectedDate = Returns markedDates.
Proof.
  intros Hok. unfold getMarkedDates.
  assert (∀ start, ∃ markedDates,
            forEach (markRecord utcOffset) records start = Returns markedDates) as Hrun.
  { induction Hok as [| r records Hr _ IH]; intros start; simpl; [by eexists |].
    pose proof (markRecord_outcome start r) as H.
    destruct (logged_at r) as [| raw | t]; [| by destruct (Hr raw) |];
      destruct H as [markedDates' ->]; simpl; apply IH. }
  destruct (Hrun ∅) as [markedDates ->]. simpl. by eexists.
Qed.

End Unreadable.

(** C8 at a failing input: the record counts for the weight summary, the
    chart and the week comparison return without it, and getMarkedDates
    throws the RangeError of format. *)
Theorem getMarkedDates_throws_on_unparsable :
  let r := healthLog 1 "weight" 70 (Unparsable "2024-13-45") in
  let now := jan1 + 5 * msPerDay in
  avg (calculateStats initialStats [r] weight) = Some 70%Q ∧
  getChartData 0 [r] weight week now = Returns noData ∧
  Week.change (getWeekComparison 0 [r] weight now) = 0%Q ∧
  getMarkedDates 0 [r] "2024-01-06" = Throws RangeError_invalid_time.
Proof. repeat split. Qed.

(** * Further properties *)

(** ** Metric keys and metric selection *)

Lemma isValidMetric_Some metric m :
  isValidMetric metric = Some m ↔ metric = metricKey m.
Proof.
  split.
  - unfold isValidMetric. intros H.
    destruct (list_find _ METRIC_TYPES) as [[i x] |] eqn:E; [| done].
    simpl in H. injection H as ->.
    apply list_find_Some in E as (_ & Hkey & _). done.
  - intros ->. by destruct m.
Qed.

(** isValidMetric accepts the five keys of METRIC_TYPES and nothing else.
    handleSelectMetric changes the selected metric when its string is such a
    key, leaves the whole state as it is when it is not, and in no case
    touches the records, the summaries, the range or the selected date. *)
Theorem handleSelectMetric_effect c metric :
  let s := state c in
  let s' := state (step c (SelectMetric metric)) in
  (∀ m, isValidMetric metric = Some m ↔ metric = metricKey m) ∧
  (∀ m, metric = metricKey m → selectedMetric s' = m) ∧
  ((∀ m, metric ≠ metricKey m) → s' = s) ∧
  records s' = records s ∧ stats s' = stats s ∧
  timeRange s' = timeRange s ∧ selectedDate s' = selectedDate s.
Proof.
  intros s s'. subst s s'. unfold step, handle. cbn [state].
  split; [intros m; apply isValidMetric_Some |].
  destruct (isValidMetric metric) as [m |] eqn:E.
  - apply isValidMetric_Some in E as ->. repeat split; try done.
    + intros m' Hm'. simpl. by destruct m, m'.
    + intros Hnone. by destruct (Hnone m).
  - repeat split; try done.
    intros m ->. by rewrite (proj2 (isValidMetric_Some _ m) eq_refl) in E.
Qed.

(** ** The summaries on screen *)

(** In every screen that can be reached, the summaries shown are those of the
    records held: calculateStats of the records, from the initial table. *)
Theorem stats_follow_records today c metric :
  reachable today c →
  stats (state c) metric = calculateStats initialStats (records (state c)) metric.
Proof.
  induction 1 as [| c e Hc IH].
  - by rewrite calculateStats_keeps_captured.
  - destruct e; unfold step, handle; cbn [state]; try exact IH.
    + by rewrite (loadData_of_first_render today c Hc).
    + destruct (isValidMetric metric0); exact IH.
Qed.

Lemma stats_follow_records_witness :
  let data := [healthLog 1 "weight" 70 Missing; healthLog 2 "weight" 71 Missing] in
  let c := step (step (step (mount "2024-01-06") (Loaded [healthLog 0 "steps" 9 Missing]))
                      (PressTimeRange month)) (Loaded data) in
  reachable "2024-01-06" c ∧ records (state c) = data ∧
  stats (state c) steps = emptyStat ∧ trend (stats (state c) weight) = up.
Proof.
  intros data c.
  assert (reachable "2024-01-06" c) as Hc by (repeat apply reachable_step; constructor).
  split; [exact Hc |]. split; [reflexivity |].
  split.
  - rewrite (stats_follow_records "2024-01-06" c steps Hc). reflexivity.
  - rewrite (stats_follow_records "2024-01-06" c weight Hc). reflexivity.
Defined.

Lemma classify_not_none change t : classify change t ≠ none.
Proof.
  unfold classify. destruct (Qlt_le_dec t change); [done |].
  by destruct (Qlt_le_dec change (- t)).
Qed.

Lemma metricStat_trend_none metric first rest :
  trend (metricStat metric first rest) = none ↔ rest = [].
Proof.
  unfold metricStat. destruct rest as [| r rest].
  - by rewrite decide_False by (simpl; lia).
  - rewrite decide_True by (simpl; lia). cbn [trend fst]. split; [| done].
    intros H. by apply classify_not_none in H.
Qed.

(** What the card of a metric shows after a load: an average line when the
    metric has a record, a trend badge when it has two or more, and a current
    value when it has records and the last of them is not 0; the value is
    printed with one decimal for weight and sleep and with none otherwise. *)
Theorem card_after_load today c data metric :
  reachable today c →
  let m := matching metric data in
  let card := renderMetricCard (summaries c data) metric in
  (is_Some (cardAverage card) ↔ m ≠ []) ∧
  (is_Some (cardBadge card) ↔ (2 ≤ length m)%nat) ∧
  (∀ v digits, cardValue card = Some (v, digits) ↔
     (∃ r, last m = Some r ∧ value1 r = v ∧ ¬ (v == 0)%Q) ∧
     digits = match metric with weight | sleep => 1 | _ => 0 end%nat).
Proof.
  intros Hc m card. subst m card.
  rewrite (summaries_from_initial today c data Hc).
  unfold renderMetricCard. cbn [cardAverage cardBadge cardValue].
  rewrite calculateStats_lookup.
  destruct (matching metric data) as [| first rest] eqn:E.
  - simpl. repeat split; try (by intros [? ?]); try done; try lia.
    + intros [(r & ? & _) _]. done.
  - rewrite last_cons_default.
    pose proof (metricStat_trend_none metric first rest) as Hnone.
    split; [| split].
    + by split.
    + cbn [avg metricStat]. destruct (decide (trend (metricStat metric first rest) = none))
        as [Ht | Ht].
      * apply Hnone in Ht as ->. split; [by intros [? ?] | simpl; lia].
      * split; [intros _ | by eexists].
        destruct rest; [by destruct Ht; apply Hnone | simpl; lia].
    + intros v digits. cbn [current metricStat]. unfold orNull.
      destruct (Qeq_bool (value1 (List.last rest first)) 0) eqn:Hz; simpl.
      * split; [done |]. intros [(r & [= <-] & <- & Hnz) _].
        by apply Qeq_bool_iff in Hz.
      * split.
        -- intros [= <- <-]. split.
           ++ eexists. split; [done |]. split; [done |].
              intros Hq. apply Qeq_bool_iff in Hq. congruence.
           ++ by destruct metric.
        -- intros [(r & [= <-] & <- & _) ->]. by destruct metric.
Qed.

Lemma card_after_load_witness :
  let data := [healthLog 1 "steps" 3000 Missing; healthLog 2 "steps" 0 Missing;
               healthLog 3 "sleep" 7.5 Missing] in
  let c := mount "2024-01-06" in
  reachable "2024-01-06" c ∧
  cardValue (renderMetricCard (summaries c data) steps) = None ∧
  is_Some (cardBadge (renderMetricCard (summaries c data) steps)) ∧
  cardValue (renderMetricCard (summaries c data) sleep) = Some (7.5%Q, 1%nat) ∧
  cardBadge (renderMetricCard (summaries c data) sleep) = None.
Proof.
  intros data c.
  assert (reachable "2024-01-06" c) as Hc by constructor.
  split; [exact Hc |].
  pose proof (card_after_load "2024-01-06" c data steps Hc) as Hsteps.
  pose proof (card_after_load "2024-01-06" c data sleep Hc) as Hsleep.
  cbv zeta in Hsteps, Hsleep.
  destruct Hsteps as (_ & Hbadge & _). destruct Hsleep as (_ & _ & Hvalue).
  split; [reflexivity |]. split; [apply Hbadge; vm_compute; lia |].
  split; [| reflexivity].
  apply Hvalue. split; [| reflexivity].
  eexists. split; [reflexivity |]. split; [reflexivity | discriminate].
Defined.

(** ** More on rounding *)

Lemma toFixed1_canonical (x : Q) : Qred (toFixed1 x) = toFixed1 x.
Proof. unfold toFixed1. apply Qred_complete, Qred_correct. Qed.

Lemma toFixed1_idempotent (x : Q) : toFixed1 (toFixed1 x) = toFixed1 x.
Proof.
  destruct (toFixed1_spec x) as (n & Hn & _).
  transitivity (Qred (toFixed1 (toFixed1 x))); [symmetry; apply toFixed1_canonical |].
  transitivity (Qred (toFixed1 x)); [| apply toFixed1_canonical].
  apply Qred_complete. by apply (toFixed1_one_decimal _ n).
Qed.

Lemma toFixed1_opp (x : Q) : toFixed1 (- x) = (- toFixed1 x)%Q.
Proof.
  destruct (Qeq_dec x 0) as [Hzero | Hnz].
  { rewrite (toFixed1_proper (- x) 0), (toFixed1_proper x 0) by lra. reflexivity. }
  unfold toFixed1.
  assert (Qfloor (Qabs (- x) * 10 + (1 # 2)) = Qfloor (Qabs x * 10 + (1 # 2))) as ->.
  { apply Qfloor_comp. by rewrite Qabs_opp. }
  rewrite <- Qred_opp.
  destruct (Qlt_le_dec (- x) 0) as [H1 | H1], (Qlt_le_dec x 0) as [H2 | H2].
  - lra.
  - reflexivity.
  - unfold Qopp. simpl. by rewrite Z.opp_involutive.
  - destruct Hnz. lra.
Qed.



(** ** Reading the data backwards *)

Lemma classify_proper c c' t : (c == c')%Q → classify c t = classify c' t.
Proof.
  intros Hc. unfold classify.
  destruct (Qlt_le_dec t c), (Qlt_le_dec t c'); try lra; [reflexivity |].
  destruct (Qlt_le_dec c (- t)), (Qlt_le_dec c' (- t)); try lra; reflexivity.
Qed.

Lemma classify_opp c t : (0 < t)%Q → classify (- c) t = opposite (classify c t).
Proof.
  intros Ht. unfold classify.
  destruct (Qlt_le_dec t (- c)), (Qlt_le_dec t c); try lra; simpl.
  - destruct (Qlt_le_dec c (- t)); [reflexivity | lra].
  - destruct (Qlt_le_dec (- c) (- t)); [reflexivity | lra].
  - destruct (Qlt_le_dec (- c) (- t)), (Qlt_le_dec c (- t)); try lra; reflexivity.
Qed.

(** With the same records in the opposite order the change of a metric with
    two records or more changes sign, up becomes down, down becomes up and
    stable stays stable. *)
Theorem reversed_data_opposite_trend stats data metric :
  (2 ≤ length (matching metric data))%nat →
  let s := calculateStats stats data metric in
  let s' := calculateStats stats (reverse data) metric in
  trend s' = opposite (trend s) ∧ change s' = (- change s)%Q.
Proof.
  intros Hlen s s'. subst s s'. rewrite !calculateStats_lookup.
  unfold matching in *. rewrite filter_reverse.
  destruct (filter _ data) as [| f rest] eqn:E; [simpl in Hlen; lia |].
  assert (rest ≠ []) as Hrest by (destruct rest; [simpl in Hlen; lia | done]).
  pose proof (head_reverse (f :: rest)) as Hhead.
  pose proof (last_reverse (f :: rest)) as Hlast.
  pose proof (length_reverse (f :: rest)) as Hlen'.
  destruct (reverse (f :: rest)) as [| f' rest']; [simpl in Hlen'; lia |].
  assert (rest' ≠ []) as Hrest'.
  { destruct rest'; [| done]. simpl in Hlen', Hlen. lia. }
  rewrite last_cons_default in Hhead, Hlast. simpl in Hhead, Hlast.
  injection Hhead as ->. injection Hlast as Hlast.
  destruct (metricStat_two_or_more metric f rest Hrest) as [-> ->].
  destruct (metricStat_two_or_more metric (List.last rest f) rest' Hrest') as [-> ->].
  rewrite Hlast. rewrite <- toFixed1_opp, <- classify_opp by apply threshold_positive.
  split; [apply classify_proper | apply toFixed1_proper]; ring.
Qed.

Lemma reversed_data_opposite_trend_witness :
  let data := [healthLog 1 "weight" 70 Missing; healthLog 2 "steps" 100 Missing;
               healthLog 3 "weight" 71.2 Missing] in
  (2 ≤ length (matching weight data))%nat ∧
  trend (calculateStats initialStats data weight) = up ∧
  trend (calculateStats initialStats (reverse data) weight) = down.
Proof.
  intros data.
  assert (2 ≤ length (matching weight data))%nat as Hlen by (vm_compute; lia).
  split; [exact Hlen |]. split; [reflexivity |].
  pose proof (reversed_data_opposite_trend initialStats data weight Hlen) as H.
  cbv zeta in H. destruct H as [-> _]. reflexivity.
Defined.

(** ** One decimal, and the order of minimum, average and maximum *)

Lemma toFixed1_fixed (x : Q) :
  toFixed1 (toFixed1 x) = toFixed1 x ∧ ∃ n : Z, (toFixed1 x == n # 10)%Q.
Proof.
  split; [apply toFixed1_idempotent |].
  destruct (toFixed1_spec x) as (n & Hn & _). by exists n.
Qed.

(** Every number calculateStats and getWeekComparison round has one decimal:
    rounding it again changes nothing. *)
Theorem rounded_values_have_one_decimal utcOffset stats data metric today :
  let s := calculateStats stats data metric in
  let w := getWeekComparison utcOffset data metric today in
  (matching metric data ≠ [] →
   ∀ a, avg s = Some a ∨ min s = Some a ∨ max s = Some a ∨ change s = a →
        toFixed1 a = a ∧ ∃ n : Z, (a == n # 10)%Q) ∧
  (∀ a, Week.currentWeekAvg w = a ∨ Week.lastWeekAvg w = a ∨ Week.change w = a →
        toFixed1 a = a ∧ ∃ n : Z, (a == n # 10)%Q).
Proof.
  intros s w. subst s w. split.
  - intros Hsome a. rewrite calculateStats_lookup.
    destruct (matching metric data) as [| first rest]; [done |].
    unfold metricStat. cbn [avg min max change].
    intros [[= <-] | [[= <-] | [[= <-] | <-]]]; apply toFixed1_fixed.
  - intros a. unfold getWeekComparison. cbn.
    intros [<- | [<- | <-]]; apply toFixed1_fixed.
Qed.

Lemma rounded_values_have_one_decimal_witness :
  let data := [healthLog 1 "sleep" 7.26 Missing; healthLog 2 "sleep" 8.13 Missing] in
  matching sleep data ≠ [] ∧
  avg (calculateStats initialStats data sleep) = Some 7.7%Q ∧
  toFixed1 7.7 = 7.7%Q.
Proof.
  intros data.
  assert (matching sleep data ≠ []) as Hsome by discriminate.
  split; [exact Hsome |]. split; [reflexivity |].
  pose proof (rounded_values_have_one_decimal 0 initialStats data sleep 0) as H.
  cbv zeta in H. destruct H as [H _].
  apply (H Hsome 7.7%Q). left. reflexivity.
Defined.

Local Open Scope Q_scope.









Local Close Scope Q_scope.

(** ** More on the chart *)

(** getChartData never throws, and what it returns has as many values as
    labels, at least one point and, when records are charted, no more points
    than charted records. *)
Theorem chart_is_well_formed utcOffset records metric range now :
  ∃ cd, getChartData utcOffset records metric range now = Returns cd ∧
        length (labels cd) = length (data cd) ∧ labels cd ≠ [] ∧
        (selectedRecords records metric range now ≠ [] →
         (length (labels cd) ≤ length (selectedRecords records metric range now))%nat).
Proof.
  destruct (getChartData_series utcOffset records metric range now)
    as (dates & _ & Hnodup & Hdates & ->).
  eexists. split; [reflexivity |].
  destruct dates as [| label dates].
  { simpl. split; [done |]. split; [done |].
    destruct (selectedRecords records metric range now); [done | simpl; lia]. }
  rewrite decide_False by done. cbn [labels data].
  rewrite length_fmap. repeat split; [done |]. intros _.
  set (sel := selectedRecords records metric range now) in *.
  rewrite <- (length_fmap Some (label :: dates)), <- (length_fmap (dayLabel utcOffset) sel).
  apply submseteq_length, NoDup_submseteq.
  - apply (NoDup_fmap_2 _), Hnodup.
  - intros x (l & -> & Hl)%list_elem_of_fmap.
    apply Hdates in Hl as (r & Hr & <-). apply list_elem_of_fmap. eauto.
Qed.

(** A wider range keeps every record a narrower one charts: the records of
    the week chart are among those of the month chart, and these among those
    of the year chart. *)
Theorem chart_ranges_nested records metric now r :
  (r ∈ selectedRecords records metric week now →
   r ∈ selectedRecords records metric month now) ∧
  (r ∈ selectedRecords records metric month now →
   r ∈ selectedRecords records metric year now).
Proof.
  rewrite !elem_of_selectedRecords. unfold msPerDay. simpl.
  split; intros (? & ? & t & ? & ?); (split; [done |]); (split; [done |]);
    exists t; (split; [done | lia]).
Qed.

Lemma filter_filter_within {A} (P1 P2 : A → Prop)
    `{!∀ x, Decision (P1 x), !∀ x, Decision (P2 x)} (l : list A) :
  (∀ x, x ∈ l → P1 x → P2 x) → filter P1 (filter P2 l) = filter P1 l.
Proof.
  induction l as [| a l IH]; intros Himp; [done |].
  assert (filter P1 (filter P2 l) = filter P1 l) as IHl
    by (apply IH; intros x Hx; apply Himp; by right).
  rewrite (filter_cons P2). destruct (decide (P2 a)) as [H2 | H2].
  - by rewrite !filter_cons, IHl.
  - rewrite IHl, filter_cons_False; [done |].
    intros H1. apply H2, Himp; [left | done].
Qed.

(** Dropping records that would not be charted anyway (other metrics,
    timestamps that are missing, unreadable or older than the window) changes
    nothing in the chart. *)
Theorem chart_ignores_other_records utcOffset records metric range now
    (keep : HealthLog → Prop) `{!∀ r, Decision (keep r)} :
  (∀ r t, r ∈ records →
          metric_type r = metricKey metric → logged_at r = Instant t →
          now - daysToShow range * msPerDay ≤ t → keep r) →
  getChartData utcOffset (filter keep records) metric range now
  = getChartData utcOffset records metric range now.
Proof.
  intros Hkeep. unfold getChartData, selectedRecords.
  rewrite filter_filter_within; [reflexivity |].
  intros r Hin (Hm & t & Ht & Hwin)%inChart_spec. by apply (Hkeep r t).
Qed.

Lemma chart_ignores_other_records_witness :
  let now := jan1 + 6 * msPerDay in
  let charted := healthLog 1 "weight" 70 (Instant (jan1 + 5 * msPerDay)) in
  let records := [charted;
                  healthLog 2 "steps" 900 (Instant (jan1 + 5 * msPerDay));
                  healthLog 3 "weight" 71 (Unparsable "soon");
                  healthLog 4 "weight" 72 (Instant (jan1 - 30 * msPerDay))] in
  filter (λ r, id_ r = 1) records = [charted] ∧
  getChartData 0 [charted] weight week now = getChartData 0 records weight week now.
Proof.
  intros now charted records.
  assert (filter (λ r, id_ r = 1) records = [charted]) as Hfilter by reflexivity.
  split; [exact Hfilter |]. rewrite <- Hfilter.
  apply (chart_ignores_other_records 0 records weight week now (λ r, id_ r = 1)).
  intros r t Hin Hm Ht Hwin.
  repeat (apply elem_of_cons in Hin as [-> | Hin]); try done.
  - simpl in Ht. injection Ht as <-. vm_compute in Hwin. by destruct Hwin.
  - by apply elem_of_nil in Hin.
Defined.

(** ** The order of the charted records *)

Lemma sortStable_of_sorted {A} (before : A → A → bool) (l : list A) :
  Sorted (inOrder before) l → sortStable before l = l.
Proof.
  induction 1 as [| x l _ IH Hhd]; [reflexivity |].
  unfold sortStable in *. simpl. rewrite IH.
  destruct Hhd as [| y l Hxy]; [reflexivity |]. simpl.
  unfold inOrder in Hxy. by rewrite Hxy.
Qed.

Lemma StronglySorted_filter {A} (R : relation A) (P : A → Prop)
    `{!∀ x, Decision (P x)} (l : list A) :
  StronglySorted R l → StronglySorted R (filter P l).
Proof.
  induction 1 as [| x l _ IH Hall]; [constructor |].
  rewrite filter_cons. destruct (decide (P x)); [| exact IH].
  constructor; [exact IH |].
  apply Forall_forall. intros y [_ Hy]%list_elem_of_filter.
  by apply (proj1 (Forall_forall _ _) Hall).
Qed.

Lemma StronglySorted_weaken {A} (R R' : relation A) (l : list A) :
  (∀ a b, R a b → R' a b) → StronglySorted R l → StronglySorted R' l.
Proof.
  intros Himp. induction 1 as [| x l _ IH Hall]; constructor; [exact IH |].
  eapply Forall_impl; [exact Hall | by intros; apply Himp].
Qed.

(** The charted records are the records that pass the filter, reordered by
    time; when the records come in the order of their timestamps already,
    the sort leaves them exactly as the filter gave them, ties included. *)
Theorem chart_sort_keeps_chronological_order records metric range now :
  let startDate := subDays now (daysToShow range) in
  let passed := filter (λ r, inChart startDate metric r) records in
  selectedRecords records metric range now ≡ₚ passed ∧
  (StronglySorted
     (λ a b, ∀ ta tb, instantOf a = Some ta → instantOf b = Some tb → ta ≤ tb) records →
   selectedRecords records metric range now = passed).
Proof.
  intros startDate passed. subst passed startDate. unfold selectedRecords.
  split; [apply sortStable_Permutation |].
  intros Hsorted. apply sortStable_of_sorted.
  apply StronglySorted_Sorted, (StronglySorted_filter _ (λ r, inChart _ metric r)).
  eapply StronglySorted_weaken; [| exact Hsorted].
  intros a b Hab. unfold inOrder, earlier, instantOf in *.
  destruct (parseISO (logged_at b)) as [tb |]; [| done].
  destruct (parseISO (logged_at a)) as [ta |]; [| done].
  apply bool_decide_eq_false. specialize (Hab ta tb eq_refl eq_refl). lia.
Qed.

Lemma chart_sort_keeps_chronological_order_witness :
  let a := healthLog 1 "weight" 70 (Instant jan1) in
  let b := healthLog 2 "weight" 71 (Instant jan1) in
  let c := healthLog 3 "weight" 72 (Instant (jan1 + 1)) in
  StronglySorted
    (λ x y, ∀ tx ty, instantOf x = Some tx → instantOf y = Some ty → tx ≤ ty) [a; b; c] ∧
  selectedRecords [a; b; c] weight week (jan1 + msPerDay) = [a; b; c].
Proof.
  intros a b c.
  assert (StronglySorted
            (λ x y, ∀ tx ty, instantOf x = Some tx → instantOf y = Some ty → tx ≤ ty)
            [a; b; c]) as Hsorted.
  { repeat constructor; intros tx ty [= <-] [= <-]; vm_compute; discriminate. }
  split; [exact Hsorted |].
  pose proof (chart_sort_keeps_chronological_order [a; b; c] weight week (jan1 + msPerDay))
    as H.
  cbv zeta in H. destruct H as [_ H]. rewrite (H Hsorted). reflexivity.
Defined.

(** ** The values of the chart *)



(** ** renderChart *)

(** renderChart never throws.  It shows the placeholder exactly when the
    records hold none of the selected metric, whatever their dates; otherwise
    it draws what getChartData returns, as bars for steps and water and as a
    line for the other metrics, and when none of the metric's records is in
    the window what it draws is the single "no data" point. *)
Theorem renderChart_view utcOffset records metric range now :
  ∃ cd, getChartData utcOffset records metric range now = Returns cd ∧
    renderChart utcOffset records metric range now =
      Returns (match matching metric records with
               | [] => NoDataView
               | _ => match metric with
                      | steps | water => BarChart cd
                      | _ => LineChart cd
                      end
               end) ∧
    (selectedRecords records metric range now = [] → cd = noData).
Proof.
  destruct (getChartData_selected utcOffset records metric range now) as [Hnone _].
  destruct (getChartData_returns utcOffset records metric range now) as [cd Hcd].
  exists cd. split; [exact Hcd |]. split.
  - unfold renderChart. rewrite Hcd. simpl. fold (matching metric records).
    destruct (matching metric records) as [| r rs]; [reflexivity |].
    rewrite decide_False by done. by destruct metric.
  - intros Hsel. rewrite (Hnone Hsel) in Hcd. by injection Hcd.
Qed.

(** A metric with records that are all older than the window gets a chart of
    the "no data" point, not the placeholder. *)
Example renderChart_of_old_records :
  renderChart 0 [healthLog 1 "steps" 3000 (Instant jan1)] steps week (jan1 + 30 * msPerDay)
  = Returns (BarChart noData).
Proof. reflexivity. Qed.

(** ** More on the week comparison *)

(** No record counts for both weeks, and the records of both weeks lie in
    the fourteen days that end with the current week. *)
Theorem weeks_are_disjoint utcOffset records metric today r :
  let weekStart := startOfWeek utcOffset today in
  ¬ (r ∈ currentWeekRecords utcOffset records metric today ∧
     r ∈ lastWeekRecords utcOffset records metric today) ∧
  (r ∈ currentWeekRecords utcOffset records metric today ∨
   r ∈ lastWeekRecords utcOffset records metric today →
   ∃ t, logged_at r = Instant t ∧
        weekStart - 7 * msPerDay ≤ t < weekStart + 7 * msPerDay).
Proof.
  intros weekStart. subst weekStart.
  rewrite elem_of_currentWeekRecords, elem_of_lastWeekRecords. unfold endOfWeek.
  split.
  - intros [(_ & _ & t & Ht & Hin) (_ & _ & t' & Ht' & Hin')].
    rewrite Ht in Ht'. injection Ht' as <-. lia.
  - intros [(_ & _ & t & Ht & Hin) | (_ & _ & t & Ht & Hin)];
      exists t; (split; [done |]); unfold msPerDay in *; lia.
Qed.

(** Dropping records that belong to neither week (other metrics, timestamps
    that are missing, unreadable or outside the two weeks) changes nothing in
    the week comparison. *)
Theorem week_comparison_ignores_other_records utcOffset records metric today
    (keep : HealthLog → Prop) `{!∀ r, Decision (keep r)} :
  (∀ r t, r ∈ records →
          metric_type r = metricKey metric → logged_at r = Instant t →
          startOfWeek utcOffset today - 7 * msPerDay ≤ t
            < startOfWeek utcOffset today + 7 * msPerDay →
          keep r) →
  getWeekComparison utcOffset (filter keep records) metric today
  = getWeekComparison utcOffset records metric today.
Proof.
  intros Hkeep. unfold getWeekComparison, currentWeekRecords, lastWeekRecords.
  rewrite !filter_filter_within; [reflexivity | |].
  - intros r Hin (Hm & t & Ht & Hwin)%inWeek_spec. apply (Hkeep r t); try done.
    rewrite startOfWeek_subDays in Hwin. unfold endOfWeek in Hwin.
    rewrite startOfWeek_subDays in Hwin. unfold msPerDay in *. lia.
  - intros r Hin (Hm & t & Ht & Hwin)%inWeek_spec. apply (Hkeep r t); try done.
    unfold endOfWeek, msPerDay in *. lia.
Qed.

Lemma week_comparison_ignores_other_records_witness :
  let today := jan1 + 9 * msPerDay in
  let records := [healthLog 1 "sleep" 7 (Instant (jan1 + 8 * msPerDay));
                  healthLog 2 "sleep" 9 (Instant (jan1 - 60 * msPerDay));
                  healthLog 3 "sleep" 8 Missing;
                  healthLog 4 "sleep" 6 (Instant (jan1 + msPerDay))] in
  filter (λ r, id_ r ≠ 2 ∧ id_ r ≠ 3) records
  = [healthLog 1 "sleep" 7 (Instant (jan1 + 8 * msPerDay));
     healthLog 4 "sleep" 6 (Instant (jan1 + msPerDay))] ∧
  getWeekComparison 0 (filter (λ r, id_ r ≠ 2 ∧ id_ r ≠ 3) records) sleep today
  = getWeekComparison 0 records sleep today.
Proof.
  intros today records. split; [reflexivity |].
  apply (week_comparison_ignores_other_records 0 records sleep today
           (λ r, id_ r ≠ 2 ∧ id_ r ≠ 3)).
  intros r t Hin Hm Ht Hwin.
  repeat (apply elem_of_cons in Hin as [-> | Hin]); try done.
  - simpl in Ht. injection Ht as <-. vm_compute in Hwin.
    destruct Hwin as [Hwin _]. by destruct Hwin.
  - by apply elem_of_nil in Hin.
Defined.

(** ** The calendar: marked dates and the records of a day *)

Lemma forEach_cons_Returns {A S} (f : S → A → Outcome S) x xs s s' :
  f s x = Returns s' → forEach f (x :: xs) s = forEach f xs s'.
Proof. intros H. cbn [forEach]. by rewrite H. Qed.

Lemma forEach_cons_Throws {A S} (f : S → A → Outcome S) x xs s e :
  f s x = Throws e → forEach f (x :: xs) s = Throws e.
Proof. intros H. cbn [forEach]. by rewrite H. Qed.

Section Calendar.

Variable utcOffset : Z.

Lemma dayKey_instant r t :
  logged_at r = Instant t → dayKey utcOffset r = Some (formatValid utcOffset t yyyy_MM_dd).
Proof. intros Hat. unfold dayKey, instantOf. by rewrite Hat. Qed.

Lemma dayKey_Some r day :
  dayKey utcOffset r = Some day ↔
  ∃ t, logged_at r = Instant t ∧ formatValid utcOffset t yyyy_MM_dd = day.
Proof.
  split.
  - destruct (logged_at r) as [| raw | t] eqn:Hat.
    + unfold dayKey, instantOf. by rewrite Hat.
    + unfold dayKey, instantOf. by rewrite Hat.
    + rewrite (dayKey_instant r t Hat). intros Hkey%(inj Some). eauto.
  - intros (t & Hat & <-). by apply dayKey_instant.
Qed.

Lemma loggedOn_cons day r rs :
  loggedOn utcOffset day (r :: rs) =
    if decide (dayKey utcOffset r = Some day)
    then r :: loggedOn utcOffset day rs else loggedOn utcOffset day rs.
Proof. unfold loggedOn. by rewrite filter_cons. Qed.

Lemma markRecord_missing markedDates r :
  logged_at r = Missing → markRecord utcOffset markedDates r = Returns markedDates.
Proof. intros Hat. unfold markRecord. by rewrite Hat. Qed.

Lemma markRecord_instant markedDates r t :
  logged_at r = Instant t →
  markRecord utcOffset markedDates r =
    Returns (match markedDates !! formatValid utcOffset t yyyy_MM_dd with
             | Some _ => markedDates
             | None => <[formatValid utcOffset t yyyy_MM_dd := dotOf r]> markedDates
             end).
Proof.
  intros Hat. unfold markRecord. rewrite Hat.
  cbn [falsy parseISO format mbind Outcome_bind].
  by destruct (markedDates !! formatValid utcOffset t yyyy_MM_dd).
Qed.

(** The forEach of getMarkedDates keeps the entries it finds and gives every
    other day the dot of its first record. *)
Lemma forEach_markRecord_lookup records markedDates :
  Forall readable records →
  ∃ result,
    forEach (markRecord utcOffset) records markedDates = Returns result ∧
    ∀ day, result !! day =
      match markedDates !! day with
      | Some d => Some d
      | None => dotOf <$> head (loggedOn utcOffset day records)
      end.
Proof.
  intros Hok. revert markedDates.
  induction Hok as [| r records Hr _ IH]; intros markedDates.
  - exists markedDates. split; [done |]. intros day. by destruct (markedDates !! day).
  - destruct (logged_at r) as [| raw | t] eqn:Hat; [| by destruct (Hr raw) |].
    + rewrite (forEach_cons_Returns _ _ _ _ _ (markRecord_missing _ _ Hat)).
      destruct (IH markedDates) as (result & -> & Hresult).
      exists result. split; [done |]. intros day. rewrite Hresult, loggedOn_cons.
      rewrite decide_False; [done |].
      intros (t & Ht & _)%dayKey_Some. congruence.
    + rewrite (forEach_cons_Returns _ _ _ _ _ (markRecord_instant _ _ t Hat)).
      pose proof (dayKey_instant r t Hat) as Hkey.
      generalize dependent (formatValid utcOffset t yyyy_MM_dd). intros key Hkey.
      destruct (markedDates !! key) as [d |] eqn:E.
      * destruct (IH markedDates) as (result & -> & Hresult).
        exists result. split; [done |]. intros day. rewrite Hresult, loggedOn_cons.
        destruct (markedDates !! day) eqn:E'; [done |].
        rewrite decide_False; [done |]. rewrite Hkey. intros Heq%(inj Some). congruence.
      * destruct (IH (<[key := dotOf r]> markedDates)) as (result & -> & Hresult).
        exists result. split; [done |]. intros day. rewrite Hresult, loggedOn_cons.
        destruct (decide (dayKey utcOffset r = Some day)) as [Heq | Hne].
        -- rewrite Hkey in Heq. apply (inj Some) in Heq. subst day.
           by rewrite lookup_insert_eq, E.
        -- rewrite lookup_insert_ne by congruence. done.
Qed.

Lemma filterThrowing_returns {A} (f : A → Outcome bool) (P : A → Prop)
    `{H : !∀ x, Decision (P x)} (xs : list A) :
  (∀ x, x ∈ xs → f x = Returns (bool_decide (P x))) →
  filterThrowing f xs = Returns (filter P xs).
Proof.
  induction xs as [| x xs IH]; intros Hf; [reflexivity |].
  cbn [filterThrowing]. rewrite (Hf x) by left.
  rewrite IH by (intros y Hy; apply Hf; by right).
  cbn [mbind Outcome_bind].
  rewrite filter_cons. unfold bool_decide, decide. by destruct (H x).
Qed.

Lemma filterThrowing_throws {A} (f : A → Outcome bool) (xs : list A) (x : A) e :
  x ∈ xs → f x = Throws e →
  (∀ y e', y ∈ xs → f y = Throws e' → e' = e) →
  filterThrowing f xs = Throws e.
Proof.
  intros Hin Hx Honly. induction xs as [| y xs IH]; [by apply elem_of_nil in Hin |].
  cbn [filterThrowing]. destruct (f y) as [keep | e'] eqn:Hy; cbn [mbind Outcome_bind].
  - apply elem_of_cons in Hin as [-> | Hin]; [congruence |].
    rewrite IH; [done | done |]. intros z e'' Hz. apply Honly. by right.
  - f_equal. apply (Honly y); [left | done].
Qed.

Lemma onSelectedDate_missing selectedDate r :
  logged_at r = Missing → onSelectedDate utcOffset selectedDate r = Returns false.
Proof. intros Hat. unfold onSelectedDate. by rewrite Hat. Qed.

Lemma onSelectedDate_unparsable selectedDate r raw :
  logged_at r = Unparsable raw →
  onSelectedDate utcOffset selectedDate r = Throws RangeError_invalid_time.
Proof. intros Hat. unfold onSelectedDate. by rewrite Hat. Qed.

Lemma onSelectedDate_instant selectedDate r t :
  logged_at r = Instant t →
  onSelectedDate utcOffset selectedDate r
  = Returns (bool_decide (formatValid utcOffset t yyyy_MM_dd = selectedDate)).
Proof.
  intros Hat. unfold onSelectedDate. rewrite Hat.
  cbn [falsy parseISO format mbind Outcome_bind]. reflexivity.
Qed.

Lemma onSelectedDate_readable selectedDate r :
  readable r →
  onSelectedDate utcOffset selectedDate r
  = Returns (bool_decide (dayKey utcOffset r = Some selectedDate)).
Proof.
  intros Hr. destruct (logged_at r) as [| raw | t] eqn:Hat; [| by destruct (Hr raw) |].
  - rewrite (onSelectedDate_missing _ _ Hat). f_equal. symmetry.
    apply bool_decide_eq_false. intros (t & Ht & _)%dayKey_Some. congruence.
  - rewrite (onSelectedDate_instant _ _ t Hat), (dayKey_instant r t Hat).
    f_equal. apply bool_decide_ext. split; [congruence | by intros ?%(inj Some)].
Qed.

Lemma getSelectedDateRecords_returns records selectedDate :
  Forall readable records →
  getSelectedDateRecords utcOffset records selectedDate
  = Returns (loggedOn utcOffset selectedDate records).
Proof.
  intros Hok. unfold getSelectedDateRecords, loggedOn.
  apply filterThrowing_returns. intros r Hr.
  apply onSelectedDate_readable. by apply (proj1 (Forall_forall _ _) Hok).
Qed.

Lemma getSelectedDateRecords_throws records selectedDate r raw :
  r ∈ records → logged_at r = Unparsable raw →
  getSelectedDateRecords utcOffset records selectedDate = Throws RangeError_invalid_time.
Proof.
  intros Hin Hraw. unfold getSelectedDateRecords.
  apply (filterThrowing_throws _ _ r); [done | by apply (onSelectedDate_unparsable _ _ raw) |].
  intros y e' _ Hy. destruct (logged_at y) as [| raw' | t] eqn:Hat.
  - rewrite (onSelectedDate_missing _ _ Hat) in Hy. done.
  - rewrite (onSelectedDate_unparsable _ _ raw' Hat) in Hy. congruence.
  - rewrite (onSelectedDate_instant _ _ t Hat) in Hy. done.
Qed.

Lemma readable_or_not (records : list HealthLog) :
  Forall readable records ∨ ∃ r raw, r ∈ records ∧ logged_at r = Unparsable raw.
Proof.
  induction records as [| r records [IH | (r' & raw & Hin & Hraw)]].
  - left. constructor.
  - destruct (logged_at r) as [| raw | t] eqn:Hat.
    + left. constructor; [intros raw'; by rewrite Hat | done].
    + right. exists r, raw. split; [left | done].
    + left. constructor; [intros raw'; by rewrite Hat | done].
  - right. exists r', raw. split; [by right | done].
Qed.

End Calendar.

(** What getMarkedDates returns when every timestamp is missing or readable:
    the selected date is always there and selected, with the dot of its first
    record when it has one; every other day is there exactly when a record
    was logged on it, marked with the dot of the first such record in the
    order of the data (later records of the day do not change the dot). *)
Theorem getMarkedDates_lookup utcOffset records selectedDate :
  Forall readable records →
  ∃ markedDates,
    getMarkedDates utcOffset records selectedDate = Returns markedDates ∧
    ∀ day,
      markedDates !! day =
        match head (loggedOn utcOffset day records) with
        | Some r =>
            Some (if decide (day = selectedDate)
                  then {| marked := true; dotColor := dotColor (dotOf r);
                          selected := true; selectedColor := Some "#4F46E5" |}
                  else dotOf r)
        | None =>
            if decide (day = selectedDate)
            then Some {| marked := false; dotColor := None;
                         selected := true; selectedColor := Some "#4F46E5" |}
            else None
        end.
Proof.
  intros Hok. unfold getMarkedDates.
  destruct (forEach_markRecord_lookup utcOffset records ∅ Hok) as (result & -> & Hresult).
  simpl. eexists. split; [reflexivity |]. intros day.
  destruct (decide (day = selectedDate)) as [-> | Hne].
  - rewrite lookup_insert_eq, Hresult, lookup_empty.
    by destruct (head (loggedOn utcOffset selectedDate records)).
  - rewrite lookup_insert_ne by done. rewrite Hresult, lookup_empty.
    by destruct (head (loggedOn utcOffset day records)).
Qed.

Lemma getMarkedDates_lookup_witness :
  let records := [healthLog 1 "steps" 900 (Instant (jan1 + 3600000));
                  healthLog 2 "weight" 70 (Instant (jan1 + 7200000));
                  healthLog 3 "sleep" 8 Missing] in
  Forall readable records ∧
  ∃ markedDates,
    getMarkedDates 0 records "2024-01-06" = Returns markedDates ∧
    markedDates !! "2024-01-01"
    = Some {| marked := true; dotColor := Some "#10B981";
              selected := false; selectedColor := None |} ∧
    markedDates !! "2024-01-06"
    = Some {| marked := false; dotColor := None;
              selected := true; selectedColor := Some "#4F46E5" |} ∧
    markedDates !! "2024-01-02" = None.
Proof.
  intros records.
  assert (Forall readable records) as Hok by (repeat constructor; discriminate).
  split; [exact Hok |].
  destruct (getMarkedDates_lookup 0 records "2024-01-06" Hok) as (markedDates & Hrun & Hlookup).
  exists markedDates. split; [exact Hrun |].
  rewrite !Hlookup. repeat split.
Defined.

(** What getSelectedDateRecords returns when every timestamp is missing or
    readable: the records logged on the selected date, in the order of the
    data. *)
Theorem getSelectedDateRecords_lists_the_day utcOffset records selectedDate :
  Forall readable records →
  ∃ listed,
    getSelectedDateRecords utcOffset records selectedDate = Returns listed ∧
    listed `sublist_of` records ∧
    ∀ r, r ∈ listed ↔
         r ∈ records ∧
         ∃ t, logged_at r = Instant t ∧ formatValid utcOffset t yyyy_MM_dd = selectedDate.
Proof.
  intros Hok. rewrite (getSelectedDateRecords_returns utcOffset records selectedDate Hok).
  eexists. split; [reflexivity |]. unfold loggedOn. split; [apply sublist_filter |].
  intros r. rewrite list_elem_of_filter, dayKey_Some. tauto.
Qed.

Lemma getSelectedDateRecords_lists_the_day_witness :
  let a := healthLog 1 "steps" 900 (Instant (jan1 + 3600000)) in
  let b := healthLog 2 "weight" 70 (Instant (jan1 + msPerDay)) in
  let c := healthLog 3 "sleep" 8 (Instant (jan1 + 7200000)) in
  Forall readable [a; b; healthLog 4 "water" 2 Missing; c] ∧
  getSelectedDateRecords 0 [a; b; healthLog 4 "water" 2 Missing; c] "2024-01-01"
  = Returns [a; c].
Proof.
  intros a b c.
  assert (Forall readable [a; b; healthLog 4 "water" 2 Missing; c]) as Hok
    by (repeat constructor; discriminate).
  split; [exact Hok |].
  destruct (getSelectedDateRecords_lists_the_day 0 _ "2024-01-01" Hok)
    as (listed & Hrun & _).
  rewrite Hrun. vm_compute in Hrun. by injection Hrun as <-.
Defined.

(** getMarkedDates and getSelectedDateRecords throw the RangeError of format
    exactly when some record has a non-empty timestamp that parseISO cannot
    read, wherever it is in the data and whatever date is selected; otherwise
    both return. *)
Theorem day_lookups_throw_together utcOffset records selectedDate :
  let unreadable := ∃ r raw, r ∈ records ∧ logged_at r = Unparsable raw in
  (getMarkedDates utcOffset records selectedDate = Throws RangeError_invalid_time
   ↔ unreadable) ∧
  (getSelectedDateRecords utcOffset records selectedDate = Throws RangeError_invalid_time
   ↔ unreadable) ∧
  (¬ unreadable →
   ∃ markedDates listed,
     getMarkedDates utcOffset records selectedDate = Returns markedDates ∧
     getSelectedDateRecords utcOffset records selectedDate = Returns listed).
Proof.
  intros unreadable. subst unreadable.
  destruct (readable_or_not records) as [Hok | (r & raw & Hin & Hraw)].
  - destruct (getMarkedDates_returns utcOffset records selectedDate Hok) as [m Hm].
    pose proof (getSelectedDateRecords_returns utcOffset records selectedDate Hok) as Hl.
    assert (¬ ∃ r raw, r ∈ records ∧ logged_at r = Unparsable raw) as Hnone.
    { intros (r & raw & Hin & Hraw).
      by destruct (proj1 (Forall_forall _ _) Hok r Hin raw). }
    rewrite Hm, Hl. repeat split; try done. by eauto.
  - rewrite (getMarkedDates_throws utcOffset records selectedDate r raw Hin Hraw).
    rewrite (getSelectedDateRecords_throws utcOffset records selectedDate r raw Hin Hraw).
    repeat split; try by eauto. intros Hnone. destruct Hnone. eauto.
Qed.

(** A day carries a dot on the calendar exactly when selecting it lists at
    least one record, and the dot has the colour of the first record listed
    (the colour of its metric, the default colour for an unknown metric). *)
Theorem dot_iff_records_listed utcOffset records selectedDate day :
  Forall readable records →
  ∃ markedDates listed,
    getMarkedDates utcOffset records selectedDate = Returns markedDates ∧
    getSelectedDateRecords utcOffset records day = Returns listed ∧
    ((∃ d, markedDates !! day = Some d ∧ marked d = true) ↔ listed ≠ []) ∧
    (∀ r, head listed = Some r →
          ∃ d, markedDates !! day = Some d ∧
               dotColor d
               = Some (from_option metricColor "#4F46E5" (isValidMetric (metric_type r)))).
Proof.
  intros Hok.
  destruct (forEach_markRecord_lookup utcOffset records ∅ Hok) as (result & Hrun & Hresult).
  exists (<[selectedDate :=
             {| marked := from_option marked false (result !! selectedDate);
                dotColor := result !! selectedDate ≫= dotColor;
                selected := true; selectedColor := Some "#4F46E5" |}]> result),
         (loggedOn utcOffset day records).
  split; [unfold getMarkedDates; by rewrite Hrun |].
  split; [by apply getSelectedDateRecords_returns |].
  destruct (decide (day = selectedDate)) as [-> | Hne].
  - rewrite lookup_insert_eq, Hresult, lookup_empty.
    destruct (loggedOn utcOffset selectedDate records) as [| r0 l]; simpl.
    + split; [| done]. split; [| done]. by intros (d & [= <-] & ?).
    + split; [split; [done | by eexists] |]. intros r [= <-]. by eexists.
  - rewrite lookup_insert_ne by done. rewrite Hresult, lookup_empty.
    destruct (loggedOn utcOffset day records) as [| r0 l]; simpl.
    + split; [| done]. split; [| done]. by intros (d & ? & ?).
    + split; [split; [done | by eexists] |]. intros r [= <-]. by eexists.
Qed.

Lemma dot_iff_records_listed_witness :
  let records := [healthLog 1 "bloodPressure" 120 (Instant (jan1 + 3600000));
                  healthLog 2 "weight" 70 (Instant (jan1 + 7200000))] in
  Forall readable records ∧
  ∃ markedDates listed,
    getMarkedDates 0 records "2024-01-06" = Returns markedDates ∧
    getSelectedDateRecords 0 records "2024-01-01" = Returns listed ∧
    listed ≠ [] ∧
    ∃ d, markedDates !! "2024-01-01" = Some d ∧ marked d = true ∧
         dotColor d = Some "#4F46E5".
Proof.
  intros records.
  assert (Forall readable records) as Hok by (repeat constructor; discriminate).
  split; [exact Hok |].
  destruct (dot_iff_records_listed 0 records "2024-01-06" "2024-01-01" Hok)
    as (markedDates & listed & Hm & Hl & Hdot & Hcolour).
  exists markedDates, listed. split; [exact Hm |]. split; [exact Hl |].
  assert (listed = records) as -> by (vm_compute in Hl; by injection Hl).
  split; [discriminate |].
  destruct (proj2 Hdot) as (d & Hd & Hmarked); [discriminate |].
  destruct (Hcolour _ eq_refl) as (d' & Hd' & Hc).
  exists d. rewrite Hd in Hd'. injection Hd' as <-.
  split; [exact Hd |]. split; [exact Hmarked | rewrite Hc; reflexivity].
Defined.

(** ** The summary of a metric and the other records *)

(** Dropping records of other metrics changes nothing in the summary of a
    metric; timestamps play no part in it. *)
Theorem summary_ignores_other_records stats data metric
    (keep : HealthLog → Prop) `{!∀ r, Decision (keep r)} :
  (∀ r, r ∈ data → metric_type r = metricKey metric → keep r) →
  calculateStats stats (filter keep data) metric = calculateStats stats data metric.
Proof.
  intros Hkeep. rewrite !calculateStats_lookup. unfold matching.
  by rewrite filter_filter_within.
Qed.

Lemma summary_ignores_other_records_witness :
  let data := [healthLog 1 "weight" 70 Missing; healthLog 2 "steps" 900 (Instant jan1);
               healthLog 3 "weight" 71.2 (Unparsable "soon")] in
  filter (λ r, metric_type r = "weight") data
  = [healthLog 1 "weight" 70 Missing; healthLog 3 "weight" 71.2 (Unparsable "soon")] ∧
  calculateStats initialStats (filter (λ r, metric_type r = "weight") data) weight
  = calculateStats initialStats data weight.
Proof.
  intros data. split; [reflexivity |].
  apply (summary_ignores_other_records initialStats data weight
           (λ r, metric_type r = "weight")).
  intros r _ Hm. exact Hm.
Defined.

(** ** The trends screen *)

(** Once fetchTrends has settled the screen shows neither the spinner nor
    nothing: it shows the chart of the payload exactly when the request
    resolved with at least one point, and an error text that is not empty in
    every other case, whatever was on screen before. *)
Theorem trends_content_after_fetch (s : Trends.State) (r : Trends.Response) :
  let content := Trends.renderContent (Trends.fetchTrends s r) in
  Trends.renderContent Trends.initial = Trends.Spinner ∧
  Trends.loading (Trends.fetchTrends s r) = false ∧
  (∀ d, content = Trends.ChartOf d ↔
        r = Trends.Resolved d ∧ ∃ p ps, Trends.points d = Some (p :: ps)) ∧
  ((∀ d, content ≠ Trends.ChartOf d) → ∃ message, content = Trends.ErrorText message ∧ message ≠ "").
Proof.
  intros content. subst content.
  split; [reflexivity |]. split; [reflexivity |].
  unfold Trends.renderContent, Trends.fetchTrends, Trends.showData.
  destruct r as [d | message]; cbn.
  - destruct (Trends.points d) as [[| p ps] |] eqn:E; cbn.
    + split.
      * intros d'. split; [done |]. intros [[= <-] (p & ps & Hp)]. congruence.
      * intros _. by eexists.
    + split.
      * intros d'. split; [intros [= <-]; eauto | by intros [[= <-] _]].
      * intros Hnot. by destruct (Hnot d).
    + split.
      * intros d'. split; [done |]. intros [[= <-] (p & ps & Hp)]. congruence.
      * intros _. by eexists.
  - destruct (decide (message = "")) as [-> | Hne]; cbn.
    + split; [by split; [| intros [? _]] | intros _; by eexists].
    + rewrite decide_False by done.
      split; [by split; [| intros [? _]] | intros _; by eexists].
Qed.
